(** * Android AAR packaging scripts: scripts/aar.py and scripts/jitpack.py

    A shallow embedding of the two Python scripts and of the small part of
    the Python runtime they drive (pathlib, zipfile, textwrap, os.environ,
    json), followed by the properties proved about them.

    Conventions.
    - A Python [str] is a Rocq [string], read as its UTF-8 encoding; ASCII
      characters are single bytes, so concatenation, splitting at line feeds
      and the blank tests of [textwrap.dedent] agree with Python's.
    - The file system is a tree whose directories list their entries in the
      order in which the operating system enumerates them ([os.listdir],
      [os.scandir]).  That order is not specified by Python, so every list
      of children is a legitimate enumeration.
    - Effects are a state-and-exception monad [M] over a [world].
    - The functions embedded are [generate_aar] of both scripts,
      [artifact_info_from_env] and [ndk_default_abis].  The two [main]
      functions and [install] parse the command line and start external
      tools; they are not embedded. *)

From Stdlib Require Import ZArith String Ascii List DecimalString Permutation.
From Stdlib.Strings Require Import Byte.
From stdpp Require Import base option list strings gmap.
Import ListNotations.

Set Warnings "-register-all".

Local Open Scope string_scope.
Local Open Scope list_scope.

(* ================================================================== *)
(** ** Python strings *)

Definition LF : ascii := Ascii.ascii_of_nat 10.
Definition TAB : ascii := Ascii.ascii_of_nat 9.
Definition SPACE : ascii := Ascii.ascii_of_nat 32.
Definition SLASH : ascii := Ascii.ascii_of_nat 47.
(** The double quote character, as a one-character string. *)
Definition DQ : string := String (Ascii.ascii_of_nat 34) EmptyString.
Definition NL : string := String LF EmptyString.

(** [str.split(sep)] for a one-character separator. *)
Fixpoint split_on (sep : ascii) (s : string) : list string :=
  match s with
  | EmptyString => [EmptyString]
  | String c s' =>
      if Ascii.eqb c sep then EmptyString :: split_on sep s'
      else match split_on sep s' with
           | [] => [String c EmptyString]
           | x :: xs => String c x :: xs
           end
  end.

(** [s.endswith(suffix)]. *)
Fixpoint endswith (s suffix : string) : bool :=
  String.eqb s suffix ||
  match s with
  | EmptyString => false
  | String _ s' => endswith s' suffix
  end.

(** [s[n:]]. *)
Fixpoint drop_chars (n : nat) (s : string) : string :=
  match n, s with
  | O, _ => s
  | S _, EmptyString => EmptyString
  | S n', String _ s' => drop_chars n' s'
  end.

(** Membership of a character in a string, [c in s]. *)
Fixpoint contains_char (c : ascii) (s : string) : bool :=
  match s with
  | EmptyString => false
  | String c' s' => Ascii.eqb c' c || contains_char c s'
  end.


(** [str(n)] and the f-string rendering [{n}] of a Python [int]. *)
Definition repr_int (n : Z) : string := NilZero.string_of_int (Z.to_int n).

(** [text.encode("utf-8")]: strings already stand for their encoding. *)
Definition encode_utf8 (s : string) : list byte := list_byte_of_string s.

(* ------------------------------------------------------------------ *)
(** *** textwrap.dedent

    The CPython implementation: lines made of blanks only are emptied,
    the margin is the longest run of blanks that starts every remaining
    non-empty line, and it is removed from every line that starts with it. *)

Definition is_blank (c : ascii) : bool := Ascii.eqb c SPACE || Ascii.eqb c TAB.

(** A line made of spaces and tabs only. *)
Fixpoint whitespace_only (line : string) : bool :=
  match line with
  | EmptyString => true
  | String c s => is_blank c && whitespace_only s
  end.

(** The leading blanks of a line (the group captured by the indentation
    pattern of [dedent]). *)
Fixpoint leading_whitespace (line : string) : string :=
  match line with
  | EmptyString => EmptyString
  | String c s => if is_blank c then String c (leading_whitespace s) else EmptyString
  end.

Fixpoint common_prefix (a b : string) : string :=
  match a, b with
  | String x a', String y b' =>
      if Ascii.eqb x y then String x (common_prefix a' b') else EmptyString
  | _, _ => EmptyString
  end.

(** One round of the loop [for indent in indents] of [dedent]. *)
Definition update_margin (margin : option string) (indent : string) : option string :=
  match margin with
  | None => Some indent
  | Some m =>
      if String.prefix m indent then Some m
      else if String.prefix indent m then Some indent
      else Some (common_prefix m indent)
  end.

Definition strip_margin (margin line : string) : string :=
  if String.prefix margin line then drop_chars (String.length margin) line else line.

Definition dedent (text : string) : string :=
  let lines :=
    map (fun l => if whitespace_only l then EmptyString else l) (split_on LF text) in
  let indents :=
    map leading_whitespace (List.filter (fun l => negb (whitespace_only l)) lines) in
  match fold_left update_margin indents None with
  | Some (String c m) => String.concat NL (map (strip_margin (String c m)) lines)
  | _ => String.concat NL lines
  end.

(* ================================================================== *)
(** ** pathlib paths *)

(** A [PurePosixPath]: whether it is anchored at the root, and its
    components.  The components of the paths handled here are proper
    names; [..] is not interpreted. *)
Record Path := mkPath { absolute : bool; parts : list string }.

(** [str(p)]. *)
Definition str (p : Path) : string :=
  match absolute p, parts p with
  | false, [] => "."
  | a, ps => (if a then "/" else "") +:+ String.concat "/" ps
  end.

(** [Path(s)]: empty components and [.] are dropped. *)
Definition Path_of_string (s : string) : Path :=
  {| absolute := String.prefix "/" s;
     parts := List.filter (fun c => negb (String.eqb c "" || String.eqb c ".")) (split_on SLASH s) |}.

(** [p / q]. *)
Definition joinpath (p q : Path) : Path :=
  if absolute q then q
  else {| absolute := absolute p; parts := parts p ++ parts q |}.

(** The child of [p] called [name], as [iterdir] and [glob] build it. *)
Definition make_child (p : Path) (name : string) : Path :=
  {| absolute := absolute p; parts := parts p ++ [name] |}.

(** [p.name]. *)
Definition name (p : Path) : string := List.last (parts p) EmptyString.

(* ================================================================== *)
(** ** The file system *)

(** The content of a regular file: explicit bytes, or the image of a zip
    archive, kept symbolic: the members written so far and whether the
    central directory has been written.  Without its central directory the
    file is not a readable archive. *)
Inductive blob :=
| Raw (bytes : list byte)
| ZipImage (members : list (string * blob)) (finalized : bool).

Inductive node :=
| File (content : blob)
| Dir (children : list (string * node)).

Inductive errno := ENOENT | ENOTDIR | EISDIR.

Fixpoint assoc {A : Type} (k : string) (l : list (string * A)) : option A :=
  match l with
  | [] => None
  | (k', v) :: l' => if String.eqb k k' then Some v else assoc k l'
  end.

(** Replace the entry [k], or add it when there is none. *)
Fixpoint assoc_set {A : Type} (k : string) (v : A) (l : list (string * A))
  : list (string * A) :=
  match l with
  | [] => [(k, v)]
  | (k', v') :: l' =>
      if String.eqb k k' then (k, v) :: l' else (k', v') :: assoc_set k v l'
  end.

(** Resolution of a list of components from a node. *)
Fixpoint walk (n : node) (ps : list string) : errno + node :=
  match ps with
  | [] => inr n
  | p :: ps' =>
      match n with
      | File _ => inl ENOTDIR
      | Dir cs =>
          match assoc p cs with
          | Some c => walk c ps'
          | None => inl ENOENT
          end
      end
  end.

(** [open(path, "wb")] followed by writing [b]: the file is created in
    an existing directory, or its content replaced. *)
Fixpoint put (n : node) (ps : list string) (b : blob) : errno + node :=
  match ps with
  | [] => match n with Dir _ => inl EISDIR | File _ => inr (File b) end
  | p :: ps' =>
      match n with
      | File _ => inl ENOTDIR
      | Dir cs =>
          match assoc p cs, ps' with
          | Some c, _ =>
              match put c ps' b with
              | inr c' => inr (Dir (assoc_set p c' cs))
              | inl e => inl e
              end
          | None, [] => inr (Dir (assoc_set p (File b) cs))
          | None, _ :: _ => inl ENOENT
          end
      end
  end.

(** The process: its environment, working directory and file system. *)
Record world := mkWorld {
  environ : gmap string string;
  cwd : list string;
  root : node
}.

Definition resolve (w : world) (p : Path) : list string :=
  if absolute p then parts p else cwd w ++ parts p.

Definition stat (w : world) (p : Path) : errno + node := walk (root w) (resolve w p).

Definition set_root (w : world) (r : node) : world :=
  {| environ := environ w; cwd := cwd w; root := r |}.

(* ================================================================== *)
(** ** Exceptions and the monad *)

Inductive exn :=
| RuntimeError (msg : string)
| FileNotFoundError (filename : string)
| NotADirectoryError (filename : string)
| IsADirectoryError (filename : string)
| KeyError (key : string)
| TypeError
| AttributeError (attribute : string)
| ValueError (msg : string)
| SystemExit (code : string).

Definition OSError (e : errno) (filename : string) : exn :=
  match e with
  | ENOENT => FileNotFoundError filename
  | ENOTDIR => NotADirectoryError filename
  | EISDIR => IsADirectoryError filename
  end.

Inductive result (A : Type) :=
| Return (a : A)
| Raise (e : exn).
Arguments Return {A} a.
Arguments Raise {A} e.

Definition M (A : Type) : Type := world -> result A * world.

Definition ret {A : Type} (a : A) : M A := fun w => (Return a, w).

Definition raise {A : Type} (e : exn) : M A := fun w => (Raise e, w).

Definition bind {A B : Type} (m : M A) (k : A -> M B) : M B :=
  fun w =>
    match m w with
    | (Return a, w') => k a w'
    | (Raise e, w') => (Raise e, w')
    end.

Declare Scope py_scope.
Delimit Scope py_scope with py.
Notation "x <- c1 ;; c2" := (bind c1 (fun x => c2))
  (at level 100, c1 at next level, right associativity) : py_scope.
Notation "c1 ;; c2" := (bind c1 (fun _ => c2))
  (at level 100, right associativity) : py_scope.
Local Open Scope py_scope.

(** [try: body finally: cleanup]. *)
Definition try_finally {A : Type} (body : M A) (cleanup : M unit) : M A :=
  fun w =>
    match body w with
    | (r, w') =>
        match cleanup w' with
        | (Return _, w'') => (r, w'')
        | (Raise e, w'') => (Raise e, w'')
        end
    end.

(** [try: body except KeyError as ex: handler(ex.args[0])]. *)
Definition try_except_KeyError {A : Type} (body : M A) (handler : string -> M A) : M A :=
  fun w =>
    match body w with
    | (Raise (KeyError k), w') => handler k w'
    | other => other
    end.

(** [for x in xs: body(x)]. *)
Fixpoint for_each {A : Type} (xs : list A) (body : A -> M unit) : M unit :=
  match xs with
  | [] => ret tt
  | x :: xs' => body x ;; for_each xs' body
  end.

(* ================================================================== *)
(** ** pathlib and zipfile operations *)

(** [p.iterdir()]: the children of a directory, in enumeration order. *)
Definition iterdir (p : Path) : M (list Path) :=
  fun w =>
    match stat w p with
    | inr (Dir cs) => (Return (map (fun c => make_child p (fst c)) cs), w)
    | inr (File _) => (Raise (NotADirectoryError (str p)), w)
    | inl e => (Raise (OSError e (str p)), w)
    end.

(** [fnmatch] against the pattern [*suffix]. *)
Definition fnmatch_star (suffix : string) (filename : string) : bool :=
  endswith filename suffix.

(** [list(p.glob("*" + suffix))]: the children whose name matches, of any
    kind; nothing when [p] is not a directory. *)
Definition glob_star (p : Path) (suffix : string) : M (list Path) :=
  fun w =>
    match stat w p with
    | inr (Dir cs) =>
        (Return (map (fun c => make_child p (fst c))
                     (List.filter (fun c => fnmatch_star suffix (fst c)) cs)), w)
    | _ => (Return [], w)
    end.

(** A [ZipFile] object open for writing: the file it writes to. *)
Record ZipFile := mkZipFile { fp : list string }.

(** [ZipFile(file, mode="w")]: creates or truncates [file]. *)
Definition ZipFile_open (file : Path) : M ZipFile :=
  fun w =>
    match put (root w) (resolve w file) (ZipImage [] false) with
    | inr r => (Return (mkZipFile (resolve w file)), set_root w r)
    | inl e => (Raise (OSError e (str file)), w)
    end.

(** Appends one member to an archive open for writing. *)
Definition append_member (zip_file : ZipFile) (member : string * blob) : M unit :=
  fun w =>
    match walk (root w) (fp zip_file) with
    | inr (File (ZipImage ms false)) =>
        match put (root w) (fp zip_file) (ZipImage (ms ++ [member]) false) with
        | inr r => (Return tt, set_root w r)
        | inl e => (Raise (OSError e ""), w)
        end
    | _ => (Raise (ValueError "Attempt to write to ZIP archive that was already closed"), w)
    end.

(** [zip_file.writestr(arcname, data)]. *)
Definition writestr (zip_file : ZipFile) (arcname data : string) : M unit :=
  append_member zip_file (arcname, Raw (encode_utf8 data)).

(** [zip_file.write(filename, arcname=arcname)]: a regular file is stored
    with its content; a directory is stored as an empty member whose name
    ends with a slash. *)
Definition write (zip_file : ZipFile) (filename : Path) (arcname : string) : M unit :=
  fun w =>
    match stat w filename with
    | inr (File b) => append_member zip_file (arcname, b) w
    | inr (Dir _) => append_member zip_file (arcname +:+ "/", Raw []) w
    | inl e => (Raise (OSError e (str filename)), w)
    end.

(** [zip_file.close()]: writes the central directory. *)
Definition ZipFile_close (zip_file : ZipFile) : M unit :=
  fun w =>
    match walk (root w) (fp zip_file) with
    | inr (File (ZipImage ms false)) =>
        match put (root w) (fp zip_file) (ZipImage ms true) with
        | inr r => (Return tt, set_root w r)
        | inl e => (Raise (OSError e ""), w)
        end
    | _ => (Return tt, w)
    end.

(** [with ZipFile(file, mode="w") as zip_file: body(zip_file)]:
    [__exit__] closes the archive whether or not the body raised. *)
Definition with_ZipFile {A : Type} (file : Path) (body : ZipFile -> M A) : M A :=
  zip_file <- ZipFile_open file ;;
  try_finally (body zip_file) (ZipFile_close zip_file).

(* ================================================================== *)
(** ** scripts/aar.py *)

Module Aar.

(** The f-string passed to [textwrap.dedent], indentation included. *)
Definition manifest_fstring (group_id artifact_id : string) (min_sdk_version : Z) : string :=
  "                <?xml version=" +:+ DQ +:+ "1.0" +:+ DQ +:+ " encoding=" +:+ DQ +:+ "utf-8" +:+ DQ +:+ "?>" +:+ NL +:+
  "                <manifest xmlns:android=" +:+ DQ +:+ "http://schemas.android.com/apk/res/android" +:+ DQ +:+ NL +:+
  "                    package=" +:+ DQ +:+ group_id +:+ "." +:+ artifact_id +:+ DQ +:+ " >" +:+ NL +:+
  "                    <uses-sdk android:minSdkVersion=" +:+ DQ +:+ repr_int min_sdk_version +:+ DQ +:+ " />" +:+ NL +:+
  "                </manifest>" +:+ NL +:+
  "                ".

Definition generate_aar (output_path library_dir : Path)
    (group_id artifact_id : string) (min_sdk_version : Z) : M unit :=
  with_ZipFile output_path (fun zip_file =>
    writestr zip_file "AndroidManifest.xml"
      (dedent (manifest_fstring group_id artifact_id min_sdk_version)) ;;
    abi_dirs <- iterdir library_dir ;;
    for_each abi_dirs (fun abi_dir =>
      libs <- glob_star abi_dir ".so" ;;
      match libs with
      | [] => raise (RuntimeError ("No libraries found matching " +:+ str abi_dir +:+ "/*.so"))
      | _ :: _ =>
          for_each libs (fun lib =>
            write zip_file lib ("jni/" +:+ name abi_dir +:+ "/" +:+ name lib))
      end)).

End Aar.

(* ================================================================== *)
(** ** scripts/jitpack.py *)

(** A value produced by [json.load].  An object is the resulting [dict],
    in insertion order.  Of a float the script can only observe whether
    it is zero. *)
Inductive json :=
| JNull
| JBool (b : bool)
| JInt (n : Z)
| JFloat (is_zero : bool)
| JString (s : string)
| JArray (items : list json)
| JObject (members : list (string * json)).

(** Python truthiness, as tested by [if data["default"]]. *)
Definition truthy (v : json) : bool :=
  match v with
  | JNull => false
  | JBool b => b
  | JInt n => negb (Z.eqb n 0)
  | JFloat z => negb z
  | JString s => negb (String.eqb s "")
  | JArray items => match items with [] => false | _ => true end
  | JObject members => match members with [] => false | _ => true end
  end.

(** [os.environ[key]]. *)
Definition os_environ_getitem (key : string) : M string :=
  fun w =>
    match environ w !! key with
    | Some v => (Return v, w)
    | None => (Raise (KeyError key), w)
    end.

(** [sys.exit(message)]. *)
Definition sys_exit {A : Type} (message : string) : M A := raise (SystemExit message).

(** [p.exists()]. *)
Definition Path_exists (p : Path) : M bool :=
  fun w => match stat w p with inr _ => (Return true, w) | inl _ => (Return false, w) end.

(** [data[key]] for a string key. *)
Definition getitem (data : json) (key : string) : M json :=
  match data with
  | JObject members =>
      match assoc key members with
      | Some v => ret v
      | None => raise (KeyError key)
      end
  | _ => raise TypeError
  end.

(** [d.items()]. *)
Definition dict_items (d : json) : M (list (string * json)) :=
  match d with
  | JObject members => ret members
  | _ => raise (AttributeError "items")
  end.

(** The values a generator yields over a loop, as [list(...)] collects
    them: [step x] is what one round yields. *)
Fixpoint yield_from_loop {A B : Type} (xs : list A) (step : A -> M (list B)) : M (list B) :=
  match xs with
  | [] => ret []
  | x :: xs' =>
      ys <- step x ;;
      rest <- yield_from_loop xs' step ;;
      ret (ys ++ rest)
  end.

Module Jitpack.

Definition artifact_info_from_env : M (string * string * string) :=
  try_except_KeyError
    (group <- os_environ_getitem "GROUP" ;;
     artifact <- os_environ_getitem "ARTIFACT" ;;
     version <- os_environ_getitem "VERSION" ;;
     ret (group, artifact, version))
    (fun key => sys_exit (key +:+ " must be set in the environment")).

Section Json.

(** [json.loads]: the parser of the standard library is not part of the
    script; it is a parameter, [None] standing for a decoding error. *)
Variable json_loads : string -> option json.

(** [with p.open("r", encoding="utf-8") as f: json.load(f)]. *)
Definition json_load (p : Path) : M json :=
  fun w =>
    match stat w p with
    | inr (File (Raw bytes)) =>
        match json_loads (string_of_list_byte bytes) with
        | Some v => (Return v, w)
        | None => (Raise (ValueError "JSONDecodeError"), w)
        end
    | inr (File (ZipImage _ _)) => (Raise (ValueError "JSONDecodeError"), w)
    | inr (Dir _) => (Raise (IsADirectoryError (str p)), w)
    | inl e => (Raise (OSError e (str p)), w)
    end.

(** The generator, as consumed by [list(ndk_default_abis())] in [main]:
    its body runs when the list is built, and the result is the list of
    the values it yields. *)
Definition ndk_default_abis : M (list string) :=
  ndk <- try_except_KeyError
           (home <- os_environ_getitem "ANDROID_NDK_HOME" ;; ret (Path_of_string home))
           (fun _ => sys_exit "ANDROID_NDK_HOME must be set in the environment") ;;
  let abis_meta_path := joinpath ndk (Path_of_string "meta/abis.json") in
  found <- Path_exists abis_meta_path ;;
  (if negb found then
     sys_exit (str abis_meta_path +:+ " does not exist. Does ANDROID_NDK_HOME ("
               +:+ str ndk +:+ ") point to a valid NDK?")
   else ret tt) ;;
  abis_meta <- json_load abis_meta_path ;;
  items <- dict_items abis_meta ;;
  yield_from_loop items (fun item =>
    default <- getitem (snd item) "default" ;;
    ret (if truthy default then [fst item] else [])).

End Json.

(** The f-string passed to [textwrap.dedent], indentation included. *)
Definition manifest_fstring (group_id artifact_id : string) (min_sdk_version : Z) : string :=
  "                <?xml version=" +:+ DQ +:+ "1.0" +:+ DQ +:+ " encoding=" +:+ DQ +:+ "utf-8" +:+ DQ +:+ "?>" +:+ NL +:+
  "                <manifest xmlns:android=" +:+ DQ +:+ "http://schemas.android.com/apk/res/android" +:+ DQ +:+ NL +:+
  "                    package=" +:+ DQ +:+ group_id +:+ "." +:+ artifact_id +:+ DQ +:+ " >" +:+ NL +:+
  "                    <uses-sdk android:minSdkVersion=" +:+ DQ +:+ repr_int min_sdk_version +:+ DQ +:+ " />" +:+ NL +:+
  "                </manifest>" +:+ NL +:+
  "                ".

Definition generate_aar (output_path library_dir : Path)
    (group_id artifact_id : string) (min_sdk_version : Z) : M unit :=
  with_ZipFile output_path (fun zip_file =>
    writestr zip_file "AndroidManifest.xml"
      (dedent (manifest_fstring group_id artifact_id min_sdk_version)) ;;
    abi_dirs <- iterdir library_dir ;;
    for_each abi_dirs (fun abi_dir =>
      libs <- glob_star abi_dir ".so" ;;
      match libs with
      | [] => raise (RuntimeError ("No libraries found matching " +:+ str abi_dir +:+ "/*.so"))
      | _ :: _ =>
          for_each libs (fun lib =>
            write zip_file lib ("jni/" +:+ name abi_dir +:+ "/" +:+ name lib))
      end)).

End Jitpack.

(* ================================================================== *)
(** ** Notions used in the statements *)

Fixpoint distinct (names : list string) : bool :=
  match names with
  | [] => true
  | x :: rest => negb (existsb (String.eqb x) rest) && distinct rest
  end.

(** A name as a directory holds it: without slash, not empty, and
    neither [.] nor [..]. *)
Definition proper_name (s : string) : bool :=
  negb (contains_char SLASH s || String.eqb s "" || String.eqb s "." || String.eqb s "..").

(** Every directory of the tree lists distinct proper names. *)
Fixpoint wf_node (n : node) : bool :=
  match n with
  | File _ => true
  | Dir cs =>
      distinct (map fst cs) && forallb (fun c => proper_name (fst c)) cs &&
      (fix all (l : list (string * node)) : bool :=
         match l with
         | [] => true
         | c :: l' => (let '(_, n') := c in wf_node n') && all l'
         end) cs
  end.

Fixpoint is_prefix (l1 l2 : list string) : bool :=
  match l1, l2 with
  | [], _ => true
  | x :: l1', y :: l2' => String.eqb x y && is_prefix l1' l2'
  | _ :: _, [] => false
  end.

(** [p] designates [dir] or something below it. *)
Definition inside (w : world) (p dir : Path) : bool :=
  is_prefix (resolve w dir) (resolve w p).

(** [ZipFile(p, mode="w")] would succeed: the parent of [p] is an existing
    directory and [p] itself is not one. *)
Definition creatable (w : world) (p : Path) : bool :=
  match put (root w) (resolve w p) (ZipImage [] false) with
  | inr _ => true
  | inl _ => false
  end.

(** The members of the archive stored at [p], when [p] is a regular file
    holding a complete archive: what [ZipFile(p).infolist()] would read. *)
Definition read_archive (w : world) (p : Path) : option (list (string * blob)) :=
  match stat w p with
  | inr (File (ZipImage ms true)) => Some ms
  | _ => None
  end.

(** The children of a node that [glob("*" + suffix)] selects. *)
Definition glob_children (suffix : string) (n : node) : list (string * node) :=
  match n with
  | Dir cs => List.filter (fun c => fnmatch_star suffix (fst c)) cs
  | File _ => []
  end.


(** The member stored by [zip_file.write] for the child [c] of the
    directory called [abi]. *)
Definition member_for (abi : string) (c : string * node) : string * blob :=
  match snd c with
  | File b => ("jni/" +:+ abi +:+ "/" +:+ fst c, b)
  | Dir _ => (("jni/" +:+ abi +:+ "/" +:+ fst c) +:+ "/", Raw [])
  end.

(** The first child, in enumeration order, in which nothing matches. *)
Fixpoint first_without_libs (kids : list (string * node)) : option string :=
  match kids with
  | [] => None
  | (a, n) :: rest =>
      match glob_children ".so" n with
      | [] => Some a
      | _ :: _ => first_without_libs rest
      end
  end.

(** The members stored for the children enumerated before that one. *)
Fixpoint packed (kids : list (string * node)) : list (string * blob) :=
  match kids with
  | [] => []
  | (a, n) :: rest =>
      match glob_children ".so" n with
      | [] => []
      | libs => map (member_for a) libs ++ packed rest
      end
  end.

Definition manifest_member (group_id artifact_id : string) (min_sdk_version : Z)
  : string * blob :=
  ("AndroidManifest.xml",
   Raw (encode_utf8 (dedent (Aar.manifest_fstring group_id artifact_id min_sdk_version)))).

Definition no_libraries_error (abi_dir : Path) : exn :=
  RuntimeError ("No libraries found matching " +:+ str abi_dir +:+ "/*.so").

(** One round of the loop over the children of the library directory. *)
Definition abi_body (zip_file : ZipFile) (abi_dir : Path) : M unit :=
  (libs <- glob_star abi_dir ".so" ;;
   match libs with
   | [] => raise (RuntimeError ("No libraries found matching " +:+ str abi_dir +:+ "/*.so"))
   | _ :: _ =>
       for_each libs (fun f =>
         write zip_file f ("jni/" +:+ name abi_dir +:+ "/" +:+ name f))
   end)%py.

(** The world in which the file at [target] has become the archive image
    [ZipImage ms finalized]. *)
Definition with_archive (w : world) (target : list string)
    (ms : list (string * blob)) (finalized : bool) : world :=
  match put (root w) target (ZipImage ms finalized) with
  | inr r => set_root w r
  | inl _ => w
  end.


(** The manifest as a document: the XML declaration, the root element
    [manifest] with the namespace declaration [xmlns:android] and the
    attribute [package], and its only child [uses-sdk] with the attribute
    [android:minSdkVersion]. *)
Definition manifest_xml (package : string) (min_sdk_version : Z) : string :=
  "<?xml version=" +:+ DQ +:+ "1.0" +:+ DQ +:+ " encoding=" +:+ DQ +:+ "utf-8" +:+ DQ +:+ "?>" +:+ NL +:+
  "<manifest xmlns:android=" +:+ DQ +:+ "http://schemas.android.com/apk/res/android" +:+ DQ +:+ NL +:+
  "    package=" +:+ DQ +:+ package +:+ DQ +:+ " >" +:+ NL +:+
  "    <uses-sdk android:minSdkVersion=" +:+ DQ +:+ repr_int min_sdk_version +:+ DQ +:+ " />" +:+ NL +:+
  "</manifest>" +:+ NL.

(** The first of [names] that the environment does not define. *)
Definition first_missing (names : list string) (env : gmap string string) : option string :=
  List.find (fun k => match env !! k with None => true | Some _ => false end) names.


(** A process whose environment defines exactly the given variables. *)
Definition world_with_env (env : list (string * string)) (r : node) : world :=
  {| environ := list_to_map env; cwd := ["work"]; root := r |}.

(** An NDK installed in [/opt/ndk] with its [meta/abis.json]. *)
Definition ndk_root : node :=
  Dir [("opt", Dir [("ndk", Dir [("meta", Dir [("abis.json", File (Raw []))])])]);
       ("work", Dir [])].

(** The parsed content of an [abis.json] in which [riscv64] is not a
    default ABI. *)
Definition sample_abis : json :=
  JObject [("arm64-v8a", JObject [("bitness", JInt 64); ("default", JBool true)]);
           ("riscv64", JObject [("bitness", JInt 64); ("default", JBool false)]);
           ("x86_64", JObject [("bitness", JInt 64); ("default", JBool true)])].

(** Two trees that differ at most in the order in which their
    directories enumerate their entries. *)
Inductive same_tree : node -> node -> Prop :=
| same_File (b : blob) : same_tree (File b) (File b)
| same_Dir (cs1 cs2 cs : list (string * node)) :
    Forall2 (fun c1 c2 => fst c1 = fst c2 /\ same_tree (snd c1) (snd c2)) cs1 cs ->
    Permutation cs cs2 ->
    same_tree (Dir cs1) (Dir cs2).

(* ================================================================== *)
(** ** Sample worlds

    The process runs in [/work]; the archive is written to [out/foo.aar]
    and the libraries are read from [lib]. *)

Definition sample_output : Path := Path_of_string "out/foo.aar".
Definition sample_library : Path := Path_of_string "lib".

Definition sample_world (lib : list (string * node)) : world :=
  {| environ := gmap_empty;
     cwd := ["work"];
     root := Dir [("work", Dir [("lib", Dir lib); ("out", Dir [])])] |}.

Definition so_file (content : string) : node := File (Raw (list_byte_of_string content)).

(** The example of the specification: two ABIs with one library each. *)
Definition two_abis : list (string * node) :=
  [("arm64-v8a", Dir [("libfoo.so", so_file "arm64 code")]);
   ("x86_64", Dir [("libfoo.so", so_file "x86_64 code"); ("libfoo.a", so_file "archive")])].

(** The same tree, enumerated in another order. *)
Definition two_abis_reordered : list (string * node) :=
  [("x86_64", Dir [("libfoo.a", so_file "archive"); ("libfoo.so", so_file "x86_64 code")]);
   ("arm64-v8a", Dir [("libfoo.so", so_file "arm64 code")])].

(** An ABI directory without any library, enumerated second. *)
Definition one_abi_empty : list (string * node) :=
  [("arm64-v8a", Dir [("libfoo.so", so_file "arm64 code")]);
   ("x86_64", Dir [("README", so_file "nothing built")])].




(* ================================================================== *)
(** ** scripts/jitpack.py: [install] and [main]

    [main] calls into two other modules of the repository, [android] and
    [common_ci], and starts Maven.  What they do is not part of this file:
    [android.build], [android.MIN_SDK_VERSION], [common_ci.RepoRelative]
    and the operating system starting a program are parameters. *)

(** The exceptions seen by [main]: those of the functions above and the
    ones that only the driver can meet. *)
Inductive driver_exn :=
| PyExn (e : exn)
| FileExistsError (filename : string)
| CalledProcessError (returncode : Z) (cmd : list string)
| ExternalError (description : string).

Inductive outcome (A : Type) :=
| Done (a : A)
| Failed (e : driver_exn).
Arguments Done {A} a.
Arguments Failed {A} e.

Definition D (A : Type) : Type := world -> outcome A * world.

Definition dbind {A B : Type} (m : D A) (k : A -> D B) : D B :=
  fun w =>
    match m w with
    | (Done a, w') => k a w'
    | (Failed e, w') => (Failed e, w')
    end.

(** A call to one of the functions above from the driver. *)
Definition lift {A : Type} (m : M A) : D A :=
  fun w =>
    match m w with
    | (Return a, w') => (Done a, w')
    | (Raise e, w') => (Failed (PyExn e), w')
    end.

Declare Scope drv_scope.
Delimit Scope drv_scope with drv.
Notation "x <- c1 ;; c2" := (dbind c1 (fun x => c2))
  (at level 100, c1 at next level, right associativity) : drv_scope.
Notation "c1 ;; c2" := (dbind c1 (fun _ => c2))
  (at level 100, right associativity) : drv_scope.

Inductive mkdir_failure := ExistsAsFile | ComponentNotDirectory.

(** The directories that [mkdir(parents=True, exist_ok=True)] leaves:
    the missing components are created, the existing ones are kept. *)
Fixpoint makedirs (n : node) (ps : list string) : mkdir_failure + node :=
  match ps with
  | [] => match n with Dir _ => inr n | File _ => inl ExistsAsFile end
  | p :: ps' =>
      match n with
      | File _ => inl ComponentNotDirectory
      | Dir cs =>
          match makedirs (match assoc p cs with Some c => c | None => Dir [] end) ps' with
          | inr c' => inr (Dir (assoc_set p c' cs))
          | inl e => inl e
          end
      end
  end.

(** [p.mkdir(parents=True, exist_ok=True)]. *)
Definition Path_mkdir (p : Path) : D unit :=
  fun w =>
    match makedirs (root w) (resolve w p) with
    | inr r => (Done tt, set_root w r)
    | inl ExistsAsFile => (Failed (FileExistsError (str p)), w)
    | inl ComponentNotDirectory => (Failed (PyExn (NotADirectoryError (str p))), w)
    end.

Module JitpackDriver.

Section External.

Variable json_loads : string -> option json.

(** [android.build(config, abis, stl)]: runs the native build and returns
    the build directory. *)
Variable android_build : string -> list string -> string -> D Path.

(** [android.MIN_SDK_VERSION]. *)
Variable MIN_SDK_VERSION : Z.

(** [common_ci.RepoRelative(path)]. *)
Variable RepoRelative : string -> string.

(** The operating system running a command to its end: the exit status,
    or the exception of a program that could not be started. *)
Variable spawn : list string -> world -> (driver_exn + Z) * world.

(** [subprocess.run(args, check=check)]. *)
Definition subprocess_run (args : list string) (check : bool) : D unit :=
  fun w =>
    match spawn args w with
    | (inr returncode, w') =>
        if check && negb (Z.eqb returncode 0)
        then (Failed (CalledProcessError returncode args), w')
        else (Done tt, w')
    | (inl e, w') => (Failed e, w')
    end.

Definition install (aar : Path) (group_id artifact_id version : string) : D unit :=
  subprocess_run
    ["mvn";
     "install:install-file";
     "-Dfile=" +:+ str aar;
     "-DgroupId=" +:+ group_id;
     "-DartifactId=" +:+ artifact_id;
     "-Dversion=" +:+ version;
     "-Dpackaging=aar"]
    true.

Definition main : D unit :=
  (info <- lift Jitpack.artifact_info_from_env ;;
   let '(group_id, artifact_id, version) := info in
   abis <- lift (Jitpack.ndk_default_abis json_loads) ;;
   build_dir <- android_build "Release" abis "c++_static" ;;
   let aar_dir := Path_of_string (RepoRelative "build-android/aar") in
   Path_mkdir aar_dir ;;
   let aar := joinpath aar_dir
                (Path_of_string (artifact_id +:+ "-" +:+ version +:+ ".aar")) in
   lift (Jitpack.generate_aar aar (joinpath build_dir (Path_of_string "lib"))
           group_id artifact_id MIN_SDK_VERSION) ;;
   install aar group_id artifact_id version)%drv.

End External.

End JitpackDriver.

(** The entry of an ABI in [abis.json] has a field [default] that Python
    takes for true. *)
Definition default_truthy (data : json) : bool :=
  match data with
  | JObject fields =>
      match assoc "default" fields with
      | Some v => truthy v
      | None => false
      end
  | _ => false
  end.

(** A jitpack build host: the variables that jitpack sets, an NDK, and a
    checkout in [/repo] in which the native build has left its libraries
    in [/repo/build-android/cmake/lib]. *)
Definition jitpack_env : list (string * string) :=
  [("GROUP", "com.example"); ("ARTIFACT", "foo"); ("VERSION", "1.0");
   ("ANDROID_NDK_HOME", "/opt/ndk")].

Definition jitpack_root (lib : list (string * node)) : node :=
  Dir [("opt", Dir [("ndk", Dir [("meta", Dir [("abis.json", File (Raw []))])])]);
       ("repo", Dir [("build-android", Dir [("cmake", Dir [("lib", Dir lib)])])]);
       ("work", Dir [])].

(** A native build that changes nothing and reports its directory. *)
Definition built_already (config : string) (abis : list string) (stl : string) : D Path :=
  fun w => (Done (Path_of_string "/repo/build-android/cmake"), w).

(** A Maven that always exits with the given status. *)
Definition mvn_exits (status : Z) (args : list string) (w : world)
  : (driver_exn + Z) * world := (inr status, w).


(** A checkout in [/repo]. *)
Definition repo_relative (path : string) : string := "/repo/" +:+ path.

(** The same host with a regular file in the place of [build-android/aar]. *)
Definition jitpack_host_with_file : world :=
  world_with_env jitpack_env
    (Dir [("opt", Dir [("ndk", Dir [("meta", Dir [("abis.json", File (Raw []))])])]);
          ("repo", Dir [("build-android",
                         Dir [("aar", so_file "not a directory");
                              ("cmake", Dir [("lib", Dir two_abis)])])]);
          ("work", Dir [])]).

(* ================================================================== *)
(** ** Association lists and the tree *)

Lemma assoc_set_same {A : Type} (k : string) (v : A) l :
  assoc k (assoc_set k v l) = Some v.
Proof.
  induction l as [|[k' v'] l IH]; simpl.
  - by rewrite String.eqb_refl.
  - destruct (String.eqb k k') eqn:E; simpl.
    + by rewrite String.eqb_refl.
    + by rewrite E.
Qed.

Lemma assoc_set_other {A : Type} (k k' : string) (v : A) l :
  k' <> k -> assoc k' (assoc_set k v l) = assoc k' l.
Proof.
  intros Hne. induction l as [|[k0 v0] l IH]; simpl.
  - destruct (String.eqb_spec k' k); congruence.
  - destruct (String.eqb_spec k k0) as [->|Hk]; simpl.
    + destruct (String.eqb_spec k' k0); congruence.
    + by rewrite IH.
Qed.

Lemma assoc_set_twice {A : Type} (k : string) (v v' : A) l :
  assoc_set k v' (assoc_set k v l) = assoc_set k v' l.
Proof.
  induction l as [|[k0 v0] l IH]; simpl.
  - by rewrite String.eqb_refl.
  - destruct (String.eqb k k0) eqn:E; simpl.
    + by rewrite String.eqb_refl.
    + by rewrite E, IH.
Qed.

Lemma distinct_NoDup names : distinct names = true -> List.NoDup names.
Proof.
  induction names as [|x l IH]; simpl; intros H; [constructor|].
  apply andb_prop in H as [Hx Hl]. constructor; [|auto].
  intros Hin.
  apply negb_true_iff in Hx. apply not_true_iff_false in Hx. apply Hx.
  apply existsb_exists. exists x. split; [done|apply String.eqb_refl].
Qed.

Lemma assoc_In_NoDup {A : Type} (k : string) (v : A) l :
  List.NoDup (map fst l) -> In (k, v) l -> assoc k l = Some v.
Proof.
  induction l as [|[k0 v0] l IH]; simpl; intros Hnd Hin; [done|].
  apply NoDup_cons_iff in Hnd as [Hk0 Hnd].
  destruct Hin as [Heq|Hin].
  - inversion Heq; subst. by rewrite String.eqb_refl.
  - destruct (String.eqb_spec k k0) as [->|Hne]; [|auto].
    exfalso. apply Hk0.
    change k0 with (fst (k0, v)). by apply in_map.
Qed.

Lemma walk_app n p q :
  walk n (p ++ q) = match walk n p with inr n' => walk n' q | inl e => inl e end.
Proof.
  revert n. induction p as [|x p IH]; intros n; simpl; [done|].
  destruct n as [b|cs]; [done|]. destruct (assoc x cs); [apply IH|done].
Qed.

(** Writing twice at the same place keeps the second content only. *)
Lemma put_put n p b b' n1 :
  put n p b = inr n1 -> put n1 p b' = put n p b'.
Proof.
  revert n n1. induction p as [|x p IH]; intros n n1; simpl.
  - destruct n; [|done]. by intros [= <-].
  - destruct n as [|cs]; [done|].
    destruct (assoc x cs) as [c|] eqn:Hc.
    + destruct (put c p b) as [e|c'] eqn:Hput; [done|]. intros [= <-].
      rewrite assoc_set_same, (IH _ _ Hput).
      destruct (put c p b'); [done|]. by rewrite assoc_set_twice.
    + destruct p; [|done]. intros [= <-].
      rewrite assoc_set_same. simpl. by rewrite assoc_set_twice.
Qed.

(** Whether a file can be written at [p] does not depend on the content. *)
Lemma put_any n p b b' n1 :
  put n p b = inr n1 -> exists n2, put n p b' = inr n2.
Proof.
  revert n n1. induction p as [|x p IH]; intros n n1; simpl.
  - destruct n; [|done]. eauto.
  - destruct n as [|cs]; [done|].
    destruct (assoc x cs) as [c|] eqn:Hc.
    + destruct (put c p b) as [e|c'] eqn:Hput; [done|]. intros _.
      destruct (IH _ _ Hput) as [c2 ->]. eauto.
    + destruct p; [|done]. eauto.
Qed.

Lemma walk_put n p b n1 :
  put n p b = inr n1 -> walk n1 p = inr (File b).
Proof.
  revert n n1. induction p as [|x p IH]; intros n n1; simpl.
  - destruct n; [|done]. by intros [= <-].
  - destruct n as [|cs]; [done|].
    destruct (assoc x cs) as [c|] eqn:Hc.
    + destruct (put c p b) as [e|c'] eqn:Hput; [done|]. intros [= <-].
      rewrite assoc_set_same. eauto.
    + destruct p; [|done]. intros [= <-]. by rewrite assoc_set_same.
Qed.

Lemma is_prefix_app l1 l2 l : is_prefix (l1 ++ l) l2 = true -> is_prefix l1 l2 = true.
Proof.
  revert l2. induction l1 as [|x l1 IH]; intros l2; simpl; [done|].
  destruct l2 as [|y l2]; [done|]. intros H.
  apply andb_prop in H as [-> H]. simpl. eauto.
Qed.

(** Writing at [q] leaves what is not at or above [q] as it was. *)
Lemma walk_put_frame n q b n1 p x :
  put n q b = inr n1 -> is_prefix p q = false -> walk n p = inr x ->
  walk n1 p = inr x.
Proof.
  revert n n1 q. induction p as [|y p IH]; intros n n1 q; simpl; [done|].
  destruct q as [|z q]; simpl.
  - destruct n; [|done]. done.
  - destruct n as [|cs]; [done|].
    destruct (String.eqb_spec y z) as [->|Hne]; simpl.
    + destruct (assoc z cs) as [c|] eqn:Hc; [|done].
      destruct (put c q b) as [e|c'] eqn:Hput; [done|].
      intros [= <-] Hpre Hwalk. rewrite assoc_set_same. eauto.
    + intros Hput _.
      assert (exists v, n1 = Dir (assoc_set z v cs)) as [v ->].
      { destruct (assoc z cs) as [c|].
        - destruct (put c q b); [done|]. injection Hput as <-. eauto.
        - destruct q; [|done]. injection Hput as <-. eauto. }
      by rewrite assoc_set_other.
Qed.

Lemma wf_node_Dir cs :
  wf_node (Dir cs) = true <->
  distinct (map fst cs) = true /\
  forallb (fun c => proper_name (fst c)) cs = true /\
  Forall (fun c => wf_node (snd c) = true) cs.
Proof.
  simpl. rewrite !andb_true_iff.
  assert ((fix all (l : list (string * node)) : bool :=
             match l with
             | [] => true
             | c :: l' => (let '(_, n') := c in wf_node n') && all l'
             end) cs = true <-> Forall (fun c => wf_node (snd c) = true) cs) as ->.
  { induction cs as [|[k n] cs IH]; [by split; [constructor|]|].
    rewrite andb_true_iff, IH. split.
    - intros [? ?]. by constructor.
    - by inversion 1. }
  tauto.
Qed.

Lemma wf_node_child cs a n :
  wf_node (Dir cs) = true -> In (a, n) cs -> wf_node n = true.
Proof.
  intros Hwf Hin. apply wf_node_Dir in Hwf as (_ & _ & Hall).
  rewrite Forall_forall in Hall. apply list_elem_of_In in Hin. apply (Hall _ Hin).
Qed.

Lemma wf_node_NoDup cs : wf_node (Dir cs) = true -> List.NoDup (map fst cs).
Proof. intros Hwf. apply wf_node_Dir in Hwf as (H & _). by apply distinct_NoDup. Qed.

Lemma assoc_In {A : Type} (k : string) (v : A) l : assoc k l = Some v -> In (k, v) l.
Proof.
  induction l as [|[k0 v0] l IH]; simpl; [done|].
  destruct (String.eqb_spec k k0) as [->|Hne]; [intros [= ->]; by left|auto].
Qed.

Lemma wf_node_walk n p n' :
  wf_node n = true -> walk n p = inr n' -> wf_node n' = true.
Proof.
  revert n. induction p as [|x p IH]; intros n Hwf; simpl.
  - by intros [= <-].
  - destruct n as [|cs]; [done|].
    destruct (assoc x cs) as [c|] eqn:Hc; [|done].
    apply IH. eapply wf_node_child; [done|]. by apply assoc_In.
Qed.

(* ================================================================== *)
(** ** Running the monad *)

Lemma bind_Return {A B : Type} (m : M A) (k : A -> M B) w a w' :
  m w = (Return a, w') -> bind m k w = k a w'.
Proof. unfold bind. by intros ->. Qed.

Lemma resolve_make_child w p a : resolve w (make_child p a) = resolve w p ++ [a].
Proof. unfold resolve, make_child. simpl. destruct (absolute p); [done|]. by rewrite app_assoc. Qed.

Lemma name_make_child p a : name (make_child p a) = a.
Proof. unfold name, make_child. simpl. apply last_last. Qed.

(** *** One archive being written

    The archive is open at [po]; [pl] is a directory that does not contain
    [po].  Every step of the script keeps the world of the form
    [with_archive w po ms false]. *)
Section Archive.

Context (w : world) (po : list string) (r0 : node).
Hypothesis Hopen : put (root w) po (ZipImage [] false) = inr r0.

Lemma with_archive_root ms fin :
  exists r, put (root w) po (ZipImage ms fin) = inr r /\
            with_archive w po ms fin = set_root w r.
Proof.
  destruct (put_any _ _ _ (ZipImage ms fin) _ Hopen) as [r Hr].
  exists r. split; [done|]. unfold with_archive. by rewrite Hr.
Qed.

Lemma with_archive_resolve ms fin p :
  resolve (with_archive w po ms fin) p = resolve w p.
Proof. destruct (with_archive_root ms fin) as (r & _ & ->). done. Qed.

Lemma with_archive_walk_target ms fin :
  walk (root (with_archive w po ms fin)) po = inr (File (ZipImage ms fin)).
Proof.
  destruct (with_archive_root ms fin) as (r & Hr & ->). simpl.
  by apply (walk_put _ _ _ _ Hr).
Qed.

Lemma with_archive_walk_frame ms fin p x :
  is_prefix p po = false -> walk (root w) p = inr x ->
  walk (root (with_archive w po ms fin)) p = inr x.
Proof.
  destruct (with_archive_root ms fin) as (r & Hr & ->). simpl.
  by apply walk_put_frame with (b := ZipImage ms fin).
Qed.

Lemma with_archive_again ms fin ms' fin' :
  with_archive (with_archive w po ms fin) po ms' fin' = with_archive w po ms' fin'.
Proof.
  destruct (with_archive_root ms fin) as (r & Hr & ->).
  unfold with_archive at 1. simpl. rewrite (put_put _ _ _ _ _ Hr).
  destruct (put_any _ _ _ (ZipImage ms' fin') _ Hopen) as [r' Hr'].
  unfold with_archive. by rewrite Hr'.
Qed.

Lemma with_archive_put ms fin ms' fin' :
  exists r, put (root (with_archive w po ms fin)) po (ZipImage ms' fin') = inr r.
Proof.
  destruct (with_archive_root ms fin) as (r & Hr & ->). simpl.
  rewrite (put_put _ _ _ _ _ Hr). eapply put_any, Hopen.
Qed.

Lemma run_ZipFile_open out :
  resolve w out = po ->
  ZipFile_open out w = (Return (mkZipFile po), with_archive w po [] false).
Proof.
  intros Hout. unfold ZipFile_open, with_archive. by rewrite Hout, Hopen.
Qed.

Lemma run_append_member ms m :
  append_member (mkZipFile po) m (with_archive w po ms false) =
  (Return tt, with_archive w po (ms ++ [m]) false).
Proof.
  unfold append_member. simpl. rewrite with_archive_walk_target.
  destruct (with_archive_put ms false (ms ++ [m]) false) as [r Hr].
  rewrite Hr. f_equal.
  rewrite <- (with_archive_again ms false (ms ++ [m]) false).
  unfold with_archive at 2. by rewrite Hr.
Qed.

Lemma run_ZipFile_close ms :
  ZipFile_close (mkZipFile po) (with_archive w po ms false) =
  (Return tt, with_archive w po ms true).
Proof.
  unfold ZipFile_close. simpl. rewrite with_archive_walk_target.
  destruct (with_archive_put ms false ms true) as [r Hr].
  rewrite Hr. f_equal.
  rewrite <- (with_archive_again ms false ms true).
  unfold with_archive at 2. by rewrite Hr.
Qed.

End Archive.

(** *** The loop over the library directory *)
Section Packing.

Context (w : world) (po : list string) (r0 : node) (lib : Path)
        (kids : list (string * node)).
Hypothesis Hopen : put (root w) po (ZipImage [] false) = inr r0.
Hypothesis Hlib : walk (root w) (resolve w lib) = inr (Dir kids).
Hypothesis Hout : is_prefix (resolve w lib) po = false.
Hypothesis Hkids : List.NoDup (map fst kids).
Hypothesis Hsub : forall a cs, In (a, Dir cs) kids -> List.NoDup (map fst cs).

Lemma walk_child a n : In (a, n) kids -> walk (root w) (resolve w lib ++ [a]) = inr n.
Proof.
  intros Hin. rewrite walk_app, Hlib. simpl.
  by rewrite (assoc_In_NoDup a n kids Hkids Hin).
Qed.

Lemma walk_grandchild a cs f nf :
  In (a, Dir cs) kids -> In (f, nf) cs ->
  walk (root w) ((resolve w lib ++ [a]) ++ [f]) = inr nf.
Proof.
  intros Ha Hf. rewrite walk_app, (walk_child _ _ Ha). simpl.
  by rewrite (assoc_In_NoDup f nf cs (Hsub _ _ Ha) Hf).
Qed.

Lemma outside_below l : is_prefix (resolve w lib ++ l) po = false.
Proof.
  destruct (is_prefix (resolve w lib ++ l) po) eqn:E; [|done].
  apply is_prefix_app in E. congruence.
Qed.

Lemma run_iterdir ms :
  iterdir lib (with_archive w po ms false) =
  (Return (map (fun c => make_child lib (fst c)) kids), with_archive w po ms false).
Proof.
  unfold iterdir, stat. rewrite (with_archive_resolve _ _ _ Hopen).
  rewrite (with_archive_walk_frame _ _ _ Hopen _ _ _ _ Hout Hlib). done.
Qed.

Lemma run_glob_child ms a n :
  In (a, n) kids ->
  glob_star (make_child lib a) ".so" (with_archive w po ms false) =
  (Return (map (fun c => make_child (make_child lib a) (fst c)) (glob_children ".so" n)),
   with_archive w po ms false).
Proof.
  intros Hin. unfold glob_star, stat.
  rewrite (with_archive_resolve _ _ _ Hopen), resolve_make_child.
  rewrite (with_archive_walk_frame _ _ _ Hopen _ _ _ _
             (outside_below [a]) (walk_child _ _ Hin)).
  by destruct n.
Qed.

Lemma run_write_child ms a cs c :
  In (a, Dir cs) kids -> In c cs ->
  write (mkZipFile po) (make_child (make_child lib a) (fst c))
    ("jni/" +:+ name (make_child lib a) +:+ "/" +:+
     name (make_child (make_child lib a) (fst c)))
    (with_archive w po ms false) =
  (Return tt, with_archive w po (ms ++ [member_for a c]) false).
Proof.
  intros Ha Hc. destruct c as [f nf]. unfold write, stat.
  rewrite (with_archive_resolve _ _ _ Hopen), !resolve_make_child.
  rewrite <- app_assoc.
  rewrite (with_archive_walk_frame _ _ _ Hopen _ _ _ nf (outside_below _)).
  2:{ rewrite app_assoc. by apply (walk_grandchild a cs). }
  rewrite !name_make_child. unfold member_for. simpl.
  destruct nf; apply (run_append_member _ _ _ Hopen).
Qed.

Lemma run_write_libs a cs l ms :
  In (a, Dir cs) kids -> (forall c, In c l -> In c cs) ->
  for_each (map (fun c => make_child (make_child lib a) (fst c)) l)
    (fun f => write (mkZipFile po) f
                ("jni/" +:+ name (make_child lib a) +:+ "/" +:+ name f))
    (with_archive w po ms false) =
  (Return tt, with_archive w po (ms ++ map (member_for a) l) false).
Proof.
  intros Ha. revert ms. induction l as [|c l IH]; intros ms Hl; simpl.
  - by rewrite app_nil_r.
  - erewrite bind_Return; [|apply (run_write_child ms a cs c Ha); apply Hl; by left].
    rewrite IH; [|intros; apply Hl; by right].
    by rewrite <- app_assoc.
Qed.

Lemma run_abi_body a n ms :
  In (a, n) kids ->
  abi_body (mkZipFile po) (make_child lib a) (with_archive w po ms false) =
  match glob_children ".so" n with
  | [] => (Raise (no_libraries_error (make_child lib a)), with_archive w po ms false)
  | libs => (Return tt, with_archive w po (ms ++ map (member_for a) libs) false)
  end.
Proof.
  intros Ha. unfold abi_body, bind. rewrite (run_glob_child ms a n Ha).
  destruct (glob_children ".so" n) as [|c cs'] eqn:Hglob; [done|].
  destruct n as [|cs]; [done|].
  apply (run_write_libs a cs (c :: cs') ms Ha).
  intros c' Hc'. rewrite <- Hglob in Hc'.
  by apply filter_In in Hc' as [Hc' _].
Qed.

Lemma run_abi_loop l ms :
  (forall c, In c l -> In c kids) ->
  for_each (map (fun c => make_child lib (fst c)) l) (abi_body (mkZipFile po))
    (with_archive w po ms false) =
  (match first_without_libs l with
   | None => Return tt
   | Some c => Raise (no_libraries_error (make_child lib c))
   end,
   with_archive w po (ms ++ packed l) false).
Proof.
  revert ms. induction l as [|[a n] l IH]; intros ms Hl; simpl.
  - by rewrite app_nil_r.
  - assert (In (a, n) kids) as Ha by (apply Hl; by left).
    unfold bind. rewrite (run_abi_body a n ms Ha).
    destruct (glob_children ".so" n) as [|c cs'] eqn:Hglob.
    + by rewrite app_nil_r.
    + rewrite IH; [|intros; apply Hl; by right].
      by rewrite <- app_assoc.
Qed.

Lemma generate_aar_unfold out g a n :
  Aar.generate_aar out lib g a n =
  with_ZipFile out (fun zip_file =>
    writestr zip_file "AndroidManifest.xml" (dedent (Aar.manifest_fstring g a n)) ;;
    abi_dirs <- iterdir lib ;;
    for_each abi_dirs (abi_body zip_file)).
Proof. reflexivity. Qed.

(** The whole run: the outcome is decided by the first child without
    libraries, and the only effect is the archive at the output path. *)
Lemma run_generate_aar out g a n :
  resolve w out = po ->
  Aar.generate_aar out lib g a n w =
  (match first_without_libs kids with
   | None => Return tt
   | Some c => Raise (no_libraries_error (make_child lib c))
   end,
   with_archive w po (manifest_member g a n :: packed kids) true).
Proof.
  intros Hpo. rewrite generate_aar_unfold. unfold with_ZipFile.
  erewrite bind_Return; [|by apply (run_ZipFile_open _ _ _ Hopen)].
  unfold try_finally.
  erewrite bind_Return; [|apply (run_append_member _ _ _ Hopen)].
  erewrite bind_Return; [|apply run_iterdir].
  rewrite run_abi_loop by done. simpl.
  by rewrite (run_ZipFile_close _ _ _ Hopen).
Qed.

End Packing.

(** *** From the hypotheses of the statements to the run *)

Lemma creatable_put w out :
  creatable w out = true ->
  exists r0, put (root w) (resolve w out) (ZipImage [] false) = inr r0.
Proof. unfold creatable. destruct (put _ _ _) as [|r0]; [done|eauto]. Qed.

Lemma read_with_archive w out r0 ms :
  put (root w) (resolve w out) (ZipImage [] false) = inr r0 ->
  read_archive (with_archive w (resolve w out) ms true) out = Some ms.
Proof.
  intros Hopen. unfold read_archive, stat.
  rewrite (with_archive_resolve _ _ _ Hopen).
  by rewrite (with_archive_walk_target _ _ _ Hopen).
Qed.

Lemma wf_listing w lib kids :
  wf_node (root w) = true -> stat w lib = inr (Dir kids) ->
  List.NoDup (map fst kids) /\
  (forall a cs, In (a, Dir cs) kids -> List.NoDup (map fst cs)) /\
  Forall (fun c => proper_name (fst c) = true) kids.
Proof.
  intros Hwf Hlib. pose proof (wf_node_walk _ _ _ Hwf Hlib) as Hk.
  split; [by apply wf_node_NoDup|]. split.
  - intros a cs Hin. eapply wf_node_NoDup, wf_node_child; eauto.
  - apply wf_node_Dir in Hk as (_ & Hp & _).
    rewrite forallb_forall in Hp. apply Forall_forall.
    intros c Hc. apply Hp. by apply list_elem_of_In.
Qed.

(** The run of [generate_aar] in a well-formed file system, when the
    archive can be created outside the library directory. *)
Lemma generate_aar_run w out lib g a n kids :
  wf_node (root w) = true ->
  creatable w out = true ->
  inside w out lib = false ->
  stat w lib = inr (Dir kids) ->
  exists w',
    Aar.generate_aar out lib g a n w =
      (match first_without_libs kids with
       | None => Return tt
       | Some c => Raise (no_libraries_error (make_child lib c))
       end, w') /\
    read_archive w' out = Some (manifest_member g a n :: packed kids).
Proof.
  intros Hwf Hc Hin Hlib.
  destruct (creatable_put _ _ Hc) as [r0 Hopen].
  destruct (wf_listing _ _ _ Hwf Hlib) as (Hk & Hs & _).
  eexists. split.
  - by apply (run_generate_aar w _ r0 lib kids Hopen Hlib Hin Hk Hs).
  - by apply (read_with_archive _ _ r0).
Qed.


Lemma first_without_libs_None kids :
  first_without_libs kids = None <->
  (forall c, In c kids -> glob_children ".so" (snd c) <> []).
Proof.
  induction kids as [|[a n] kids IH]; simpl.
  - split; [intros _ c []|done].
  - destruct (glob_children ".so" n) as [|x xs] eqn:Hg.
    + split; [done|]. intros H. exfalso. by apply (H (a, n)); [left|].
    + rewrite IH. split.
      * intros H c [<-|Hc]; [simpl; by rewrite Hg|auto].
      * intros H c Hc. apply H. by right.
Qed.



(* ================================================================== *)
(** ** Properties of [generate_aar] *)

(** The example of the specification: two ABIs, [com.example], [foo],
    minimum SDK 26. *)
Example generate_aar_two_abis :
  exists w',
    Aar.generate_aar sample_output sample_library "com.example" "foo" 26
      (sample_world two_abis) = (Return tt, w') /\
    read_archive w' sample_output =
      Some [("AndroidManifest.xml",
             Raw (encode_utf8 (manifest_xml "com.example.foo" 26)));
            ("jni/arm64-v8a/libfoo.so", Raw (list_byte_of_string "arm64 code"));
            ("jni/x86_64/libfoo.so", Raw (list_byte_of_string "x86_64 code"))].
Proof. eexists. split; reflexivity. Qed.











(** *** Names of the members *)

Local Arguments append !s1 s2 : simpl nomatch.


Lemma packed_flat_map kids :
  first_without_libs kids = None ->
  packed kids =
  flat_map (fun c => map (member_for (fst c)) (glob_children ".so" (snd c))) kids.
Proof.
  induction kids as [|[a n] kids IH]; simpl; [done|].
  destruct (glob_children ".so" n); [done|]. intros H. by rewrite IH.
Qed.








(** *** Enumeration order *)

Lemma Permutation_filter_bool {A : Type} (p : A -> bool) (l l' : list A) :
  Permutation l l' -> Permutation (List.filter p l) (List.filter p l').
Proof.
  induction 1 as [|x l l' _ IH|x y l|l l' l'' _ IH1 _ IH2]; simpl.
  - constructor.
  - destruct (p x); [by constructor|done].
  - destruct (p x), (p y); try reflexivity. apply perm_swap.
  - by transitivity (List.filter p l').
Qed.

Lemma same_tree_member a f n1 n2 :
  same_tree n1 n2 -> member_for a (f, n1) = member_for a (f, n2).
Proof. by inversion 1. Qed.

Lemma same_tree_libs a n1 n2 :
  same_tree n1 n2 ->
  Permutation (map (member_for a) (glob_children ".so" n1))
              (map (member_for a) (glob_children ".so" n2)).
Proof.
  intros H. inversion H as [b|cs1 cs2 cs Hall Hperm]; subst; [reflexivity|].
  clear H. simpl.
  transitivity (map (member_for a) (List.filter (fun c => fnmatch_star ".so" (fst c)) cs)).
  - clear Hperm. induction Hall as [|[f1 c1] [f2 c2] l1 l2 [Hf Hc] _ IH]; [reflexivity|].
    cbn [fst snd] in Hf, Hc. subst f2. cbn [List.filter fst].
    destruct (fnmatch_star ".so" f1); [|done].
    cbn [map]. rewrite (same_tree_member a f1 c1 c2 Hc). by constructor.
  - by apply Permutation_map, Permutation_filter_bool.
Qed.

Lemma same_tree_no_libs n1 n2 :
  same_tree n1 n2 -> glob_children ".so" n1 = [] -> glob_children ".so" n2 = [].
Proof.
  intros Hsame Hnil. pose proof (same_tree_libs "" n1 n2 Hsame) as Hperm.
  rewrite Hnil in Hperm. apply Permutation_nil in Hperm.
  by destruct (glob_children ".so" n2).
Qed.

Lemma same_tree_sym_libs n1 n2 :
  same_tree n1 n2 -> glob_children ".so" n2 = [] -> glob_children ".so" n1 = [].
Proof.
  intros Hsame Hnil. pose proof (same_tree_libs "" n1 n2 Hsame) as Hperm.
  rewrite Hnil in Hperm. apply Permutation_sym, Permutation_nil in Hperm.
  by destruct (glob_children ".so" n1).
Qed.

Lemma same_listing_members kids1 kids2 :
  same_tree (Dir kids1) (Dir kids2) ->
  Permutation
    (flat_map (fun c => map (member_for (fst c)) (glob_children ".so" (snd c))) kids1)
    (flat_map (fun c => map (member_for (fst c)) (glob_children ".so" (snd c))) kids2).
Proof.
  intros H. inversion H as [|cs1 cs2 cs Hall Hperm]; subst. clear H.
  etransitivity; [|by apply Permutation_flat_map].
  clear Hperm. induction Hall as [|[f1 c1] [f2 c2] l1 l2 [Hf Hc] _ IH]; [reflexivity|].
  cbn [fst snd] in Hf, Hc. subst f2. cbn [flat_map fst snd].
  apply Permutation_app; [by apply same_tree_libs|done].
Qed.

Lemma same_listing_all_libs kids1 kids2 :
  same_tree (Dir kids1) (Dir kids2) ->
  first_without_libs kids1 = None -> first_without_libs kids2 = None.
Proof.
  intros H. inversion H as [|cs1 cs2 cs Hall Hperm]; subst. clear H.
  rewrite !first_without_libs_None. intros H1 c2 Hc2 Hnil.
  apply (Permutation_in _ (Permutation_sym Hperm)) in Hc2.
  clear Hperm. induction Hall as [|c1 c l1 l2 [Hf Hc] _ IH].
  - done.
  - destruct Hc2 as [<-|Hc2].
    + apply (H1 c1); [by left|]. by apply (same_tree_sym_libs _ _ Hc).
    + apply IH; [|done]. intros c' Hc'. apply H1. by right.
Qed.

Lemma same_listing_all_libs_rev kids1 kids2 :
  same_tree (Dir kids1) (Dir kids2) ->
  first_without_libs kids2 = None -> first_without_libs kids1 = None.
Proof.
  intros H. inversion H as [|cs1 cs2 cs Hall Hperm]; subst. clear H.
  rewrite !first_without_libs_None. intros H2 c1 Hc1 Hnil.
  assert (forall c, In c cs -> glob_children ".so" (snd c) <> []) as Hcs.
  { intros c Hc. apply H2. by apply (Permutation_in _ Hperm). }
  clear Hperm H2. induction Hall as [|c1' c l1 l2 [Hf Hc] _ IH]; [done|].
  destruct Hc1 as [<-|Hc1].
  - apply (Hcs c); [by left|]. by apply (same_tree_no_libs _ _ Hc).
  - apply IH; [done|]. intros c' Hc'. apply Hcs. by right.
Qed.

Lemma same_tree_refl : forall n, same_tree n n.
Proof.
  fix IH 1. intros [b|cs]; [constructor|].
  apply same_Dir with (cs := cs); [|reflexivity].
  induction cs as [|[k c] cs IHcs]; constructor; [|exact IHcs].
  split; [reflexivity|apply IH].
Qed.

(** C5. Two runs on the same library tree, with the same group and
    artifact identifiers and the same minimum SDK version, in which the
    directories may be enumerated in different orders.  One run returns
    normally exactly when the other does.  Both archives start with the
    same manifest member, byte for byte.  When the runs return normally the
    library members of the two archives are the same names with the same
    contents, up to the order in which they were stored; when the
    directories are enumerated in the same order, the two archives are
    equal member by member, whether or not the runs fail. *)
Theorem generate_aar_same_entries w1 w2 out1 out2 lib1 lib2 g a n kids1 kids2 :
  wf_node (root w1) = true -> wf_node (root w2) = true ->
  creatable w1 out1 = true -> creatable w2 out2 = true ->
  inside w1 out1 lib1 = false -> inside w2 out2 lib2 = false ->
  stat w1 lib1 = inr (Dir kids1) -> stat w2 lib2 = inr (Dir kids2) ->
  same_tree (Dir kids1) (Dir kids2) ->
  exists r1 r2 w1' w2' manifest libs1 libs2,
    Aar.generate_aar out1 lib1 g a n w1 = (r1, w1') /\
    Aar.generate_aar out2 lib2 g a n w2 = (r2, w2') /\
    read_archive w1' out1 = Some (("AndroidManifest.xml", manifest) :: libs1) /\
    read_archive w2' out2 = Some (("AndroidManifest.xml", manifest) :: libs2) /\
    (r1 = Return tt <-> r2 = Return tt) /\
    (r1 = Return tt -> Permutation libs1 libs2) /\
    (kids1 = kids2 -> libs1 = libs2).
Proof.
  intros Hwf1 Hwf2 Hc1 Hc2 Hin1 Hin2 Hlib1 Hlib2 Hsame.
  destruct (generate_aar_run w1 out1 lib1 g a n kids1 Hwf1 Hc1 Hin1 Hlib1)
    as (w1' & Hrun1 & Hread1).
  destruct (generate_aar_run w2 out2 lib2 g a n kids2 Hwf2 Hc2 Hin2 Hlib2)
    as (w2' & Hrun2 & Hread2).
  eexists _, _, w1', w2', _, _, _.
  split; [exact Hrun1|]. split; [exact Hrun2|].
  split; [exact Hread1|]. split; [exact Hread2|].
  split; [|split].
  - destruct (first_without_libs kids1) as [c1|] eqn:Hall1.
    + destruct (first_without_libs kids2) as [c2|] eqn:Hall2; [done|].
      by rewrite (same_listing_all_libs_rev _ _ Hsame Hall2) in Hall1.
    + by rewrite (same_listing_all_libs _ _ Hsame Hall1).
  - destruct (first_without_libs kids1) as [c1|] eqn:Hall1; [done|]. intros _.
    rewrite (packed_flat_map _ Hall1).
    rewrite (packed_flat_map _ (same_listing_all_libs _ _ Hsame Hall1)).
    by apply same_listing_members.
  - by intros ->.
Qed.

Lemma generate_aar_same_entries_witness :
  exists r1 r2 w1' w2' manifest libs1 libs2,
    Aar.generate_aar sample_output sample_library "com.example" "foo" 26
      (sample_world two_abis) = (r1, w1') /\
    Aar.generate_aar sample_output sample_library "com.example" "foo" 26
      (sample_world two_abis_reordered) = (r2, w2') /\
    read_archive w1' sample_output = Some (("AndroidManifest.xml", manifest) :: libs1) /\
    read_archive w2' sample_output = Some (("AndroidManifest.xml", manifest) :: libs2) /\
    (r1 = Return tt <-> r2 = Return tt) /\
    (r1 = Return tt -> Permutation libs1 libs2) /\
    (two_abis = two_abis_reordered -> libs1 = libs2).
Proof.
  apply (generate_aar_same_entries (sample_world two_abis) (sample_world two_abis_reordered)
           sample_output sample_output sample_library sample_library
           "com.example" "foo" 26 two_abis two_abis_reordered);
    try reflexivity.
  apply same_Dir with
    (cs := [("arm64-v8a", Dir [("libfoo.so", so_file "arm64 code")]);
            ("x86_64", Dir [("libfoo.a", so_file "archive");
                            ("libfoo.so", so_file "x86_64 code")])]).
  - repeat constructor.
    + apply same_Dir with (cs := [("libfoo.so", so_file "arm64 code")]);
        [repeat constructor|reflexivity].
    + apply same_Dir with
        (cs := [("libfoo.so", so_file "x86_64 code"); ("libfoo.a", so_file "archive")]);
        [repeat constructor|apply perm_swap].
  - apply perm_swap.
Defined.

(** *** Whatever happens after the archive is open *)
Section AppendsOnly.

Context (w : world) (po : list string) (r0 : node).
Hypothesis Hopen : put (root w) po (ZipImage [] false) = inr r0.








End AppendsOnly.

(* ================================================================== *)
(** ** The manifest *)












(* ================================================================== *)
(** ** The two copies of [generate_aar] *)

(** C8. The function [generate_aar] of [scripts/jitpack.py] and the one
    of [scripts/aar.py] behave alike: on every input and in every world
    they end with the same outcome, the same exception when they fail, and
    the same file system, hence the same archive. *)
Theorem generate_aar_same_in_both_scripts out lib g a n w :
  Jitpack.generate_aar out lib g a n w = Aar.generate_aar out lib g a n w.
Proof. reflexivity. Qed.

(* ================================================================== *)
(** ** The driver: environment and NDK metadata *)

(** C6. When one of [GROUP], [ARTIFACT], [VERSION] is not set,
    [artifact_info_from_env] exits with the message that names the first
    of them, in this order, that is missing; the world is untouched and
    nothing that follows the call runs.  When the three are set it returns
    their values, in this order. *)
Theorem artifact_info_from_env_spec w :
  (forall k,
     first_missing ["GROUP"; "ARTIFACT"; "VERSION"] (environ w) = Some k ->
     Jitpack.artifact_info_from_env w =
       (Raise (SystemExit (k +:+ " must be set in the environment")), w) /\
     forall (B : Type) (rest : string * string * string -> M B),
       bind Jitpack.artifact_info_from_env rest w =
         (Raise (SystemExit (k +:+ " must be set in the environment")), w)) /\
  (forall group artifact version,
     environ w !! "GROUP" = Some group ->
     environ w !! "ARTIFACT" = Some artifact ->
     environ w !! "VERSION" = Some version ->
     Jitpack.artifact_info_from_env w = (Return (group, artifact, version), w)).
Proof.
  unfold Jitpack.artifact_info_from_env, try_except_KeyError, bind, first_missing,
    os_environ_getitem, sys_exit, raise, ret.
  cbn [List.find].
  destruct (environ w !! "GROUP") as [group|] eqn:HG;
    [destruct (environ w !! "ARTIFACT") as [artifact|] eqn:HA;
       [destruct (environ w !! "VERSION") as [version|] eqn:HV|]|].
  - split; [done|]. by intros ? ? ? [= <-] [= <-] [= <-].
  - split; [|done]. by intros k [= <-].
  - split; [|done]. by intros k [= <-].
  - split; [|done]. by intros k [= <-].
Qed.

Lemma artifact_info_from_env_spec_witness :
  (Jitpack.artifact_info_from_env
     (world_with_env [("GROUP", "com.example"); ("VERSION", "1.0")] (Dir [])) =
     (Raise (SystemExit "ARTIFACT must be set in the environment"),
      world_with_env [("GROUP", "com.example"); ("VERSION", "1.0")] (Dir []))) /\
  (Jitpack.artifact_info_from_env
     (world_with_env [("GROUP", "com.example"); ("ARTIFACT", "foo"); ("VERSION", "1.0")]
        (Dir [])) =
     (Return ("com.example", "foo", "1.0"),
      world_with_env [("GROUP", "com.example"); ("ARTIFACT", "foo"); ("VERSION", "1.0")]
        (Dir []))).
Proof.
  split.
  - apply (proj1 (artifact_info_from_env_spec
                    (world_with_env [("GROUP", "com.example"); ("VERSION", "1.0")] (Dir [])))
             "ARTIFACT").
    reflexivity.
  - apply (proj2 (artifact_info_from_env_spec
                    (world_with_env
                       [("GROUP", "com.example"); ("ARTIFACT", "foo"); ("VERSION", "1.0")]
                       (Dir []))));
      reflexivity.
Defined.




(* ================================================================== *)
(** ** Further properties of [generate_aar] *)








Lemma packed_names kids m :
  In m (packed kids) -> exists rest, fst m = "jni/" +:+ rest.
Proof.
  induction kids as [|[abi nd] kids IH]; cbn [packed]; [done|].
  destruct (glob_children ".so" nd) as [|c cs]; [done|].
  intros Hin. apply in_app_or in Hin as [Hin|Hin]; [|auto].
  apply in_map_iff in Hin as ([f nf] & <- & _).
  unfold member_for. destruct nf; cbn [snd fst]; eauto.
Qed.

(** X4. In a well-formed file system, with the archive created outside
    the library directory, the archive left at the output path, after a
    normal return as after a failure, has [AndroidManifest.xml] as its
    first member and no other member of that name: the name of every
    other member starts with [jni/]. *)
Theorem generate_aar_single_manifest w out lib g a n kids :
  wf_node (root w) = true ->
  creatable w out = true ->
  inside w out lib = false ->
  stat w lib = inr (Dir kids) ->
  exists content libs,
    read_archive (snd (Aar.generate_aar out lib g a n w)) out =
      Some (("AndroidManifest.xml", content) :: libs) /\
    (forall m, In m libs -> exists rest, fst m = "jni/" +:+ rest) /\
    ~ In "AndroidManifest.xml" (map fst libs).
Proof.
  intros Hwf Hc Hin Hlib.
  destruct (generate_aar_run w out lib g a n kids Hwf Hc Hin Hlib) as (w' & -> & Hread).
  eexists _, _. split; [exact Hread|]. split; [apply packed_names|].
  intros Hm. apply in_map_iff in Hm as (m & Hname & Hm).
  apply packed_names in Hm as [rest Hm]. rewrite Hname in Hm. discriminate.
Qed.

Lemma generate_aar_single_manifest_witness :
  exists content libs,
    read_archive (snd (Aar.generate_aar sample_output sample_library "com.example" "foo" 26
                         (sample_world one_abi_empty))) sample_output =
      Some (("AndroidManifest.xml", content) :: libs) /\
    (forall m, In m libs -> exists rest, fst m = "jni/" +:+ rest) /\
    ~ In "AndroidManifest.xml" (map fst libs).
Proof.
  apply (generate_aar_single_manifest _ _ _ _ _ _ one_abi_empty); reflexivity.
Defined.

(** Writing at [q] does not change how a path resolves that is neither
    at or above [q] nor below it. *)
Lemma walk_put_unrelated n q b n1 p :
  put n q b = inr n1 -> is_prefix p q = false -> is_prefix q p = false ->
  walk n1 p = walk n p.
Proof.
  revert n n1 q. induction p as [|y p IH]; intros n n1 q; [done|].
  destruct q as [|z q]; [done|]. cbn [put walk is_prefix].
  destruct n as [|cs]; [done|].
  destruct (String.eqb_spec y z) as [->|Hne].
  - rewrite String.eqb_refl. cbn [andb].
    destruct (assoc z cs) as [c|] eqn:Hc.
    + destruct (put c q b) as [e|c'] eqn:Hput; [done|].
      intros [= <-] Hpq Hqp. cbn [walk]. rewrite assoc_set_same. eauto.
    + destruct q; [|done]. by intros _ _ Hqp.
  - intros Hput _ _.
    assert (exists v, n1 = Dir (assoc_set z v cs)) as [v ->].
    { destruct (assoc z cs) as [c|].
      - destruct (put c q b); [done|]. injection Hput as <-. eauto.
      - destruct q; [|done]. injection Hput as <-. eauto. }
    cbn [walk]. by rewrite assoc_set_other.
Qed.



(** X6. Running [generate_aar] again over its own result changes
    nothing: in a well-formed file system, with the archive created outside
    the library directory, a second call with the same arguments ends with
    the same outcome and leaves the file system exactly as the first call
    left it.  The archive is written anew each time; what the output file
    held before has no influence. *)
Theorem generate_aar_twice w out lib g a n kids r w' :
  wf_node (root w) = true ->
  creatable w out = true ->
  inside w out lib = false ->
  stat w lib = inr (Dir kids) ->
  Aar.generate_aar out lib g a n w = (r, w') ->
  Aar.generate_aar out lib g a n w' = (r, w').
Proof.
  intros Hwf Hc Hin Hlib Hrun. destruct (creatable_put _ _ Hc) as [r0 Hopen].
  destruct (wf_listing _ _ _ Hwf Hlib) as (Hk & Hs & _).
  pose proof (run_generate_aar w _ r0 lib kids Hopen Hlib Hin Hk Hs out g a n eq_refl)
    as Hrun1.
  rewrite Hrun in Hrun1. injection Hrun1 as -> ->.
  set (ms := manifest_member g a n :: packed kids).
  destruct (with_archive_put w _ r0 Hopen ms true [] false) as [r1 Hopen1].
  assert (resolve (with_archive w (resolve w out) ms true) out = resolve w out) as Hres
    by apply (with_archive_resolve _ _ _ Hopen).
  assert (resolve (with_archive w (resolve w out) ms true) lib = resolve w lib) as Hresl
    by apply (with_archive_resolve _ _ _ Hopen).
  rewrite (run_generate_aar (with_archive w (resolve w out) ms true) (resolve w out)
             r1 lib kids Hopen1).
  - f_equal. apply (with_archive_again _ _ _ Hopen).
  - rewrite Hresl. by apply (with_archive_walk_frame _ _ _ Hopen).
  - by rewrite Hresl.
  - done.
  - done.
  - done.
Qed.

Lemma generate_aar_twice_witness :
  Aar.generate_aar sample_output sample_library "com.example" "foo" 26
    (snd (Aar.generate_aar sample_output sample_library "com.example" "foo" 26
            (sample_world two_abis))) =
  Aar.generate_aar sample_output sample_library "com.example" "foo" 26
    (sample_world two_abis).
Proof.
  apply (generate_aar_twice (sample_world two_abis) sample_output sample_library
           "com.example" "foo" 26 two_abis); reflexivity.
Defined.

(** *** The archive written into the library directory *)

Lemma is_prefix_app_r p l1 l2 : is_prefix (p ++ l1) (p ++ l2) = is_prefix l1 l2.
Proof. induction p as [|x p IH]; simpl; [done|]. by rewrite String.eqb_refl. Qed.

Lemma walk_put_parent n p nm b n1 kids :
  walk n p = inr (Dir kids) -> put n (p ++ [nm]) b = inr n1 ->
  walk n1 p = inr (Dir (assoc_set nm (File b) kids)).
Proof.
  revert n n1. induction p as [|x p IH]; intros n n1; simpl.
  - intros [= ->]. destruct (assoc nm kids) as [[b'|cs]|]; [| done |];
      by intros [= <-].
  - destruct n as [|cs]; [done|].
    destruct (assoc x cs) as [c|] eqn:Hc; [|done].
    intros Hwalk. destruct (put c (p ++ [nm]) b) as [e|c'] eqn:Hput; [done|].
    intros [= <-]. cbn [walk]. rewrite assoc_set_same. eauto.
Qed.

Lemma assoc_set_In_other {A : Type} (k k' : string) (v v' : A) l :
  In (k', v') (assoc_set k v l) -> k' <> k -> In (k', v') l.
Proof.
  induction l as [|[k0 v0] l IH]; simpl.
  - by intros [[= <- <-]|[]].
  - destruct (String.eqb_spec k k0) as [->|Hne]; simpl.
    + intros [[= <- <-]|Hin] Hk; [done|by right].
    + intros [Heq|Hin] Hk; [by left|right; auto].
Qed.

Lemma assoc_set_In_same {A : Type} (k : string) (v v' : A) l :
  List.NoDup (map fst l) -> In (k, v') (assoc_set k v l) -> v' = v.
Proof.
  induction l as [|[k0 v0] l IH]; simpl; intros Hnd.
  - by intros [[= <-]|[]].
  - apply NoDup_cons_iff in Hnd as [Hk0 Hnd].
    destruct (String.eqb_spec k k0) as [->|Hne]; simpl.
    + intros [[= <-]|Hin]; [done|].
      exfalso. apply Hk0. change k0 with (fst (k0, v')). by apply in_map.
    + intros [[= <- <-]|Hin]; [done|auto].
Qed.

Lemma assoc_set_first_without_libs nm v kids :
  first_without_libs kids = None ->
  first_without_libs (assoc_set nm (File v) kids) = Some nm.
Proof.
  induction kids as [|[a nd] kids IH]; simpl; [done|].
  destruct (glob_children ".so" nd) as [|c cs] eqn:Hg; [done|]. intros Hrest.
  destruct (String.eqb_spec nm a) as [->|Hne]; simpl; [done|].
  rewrite Hg. auto.
Qed.

Section Aliased.

Context (w : world) (lib : Path) (nm : string) (r0 : node)
        (kids : list (string * node)).
Hypothesis Hopen : put (root w) (resolve w lib ++ [nm]) (ZipImage [] false) = inr r0.
Hypothesis Hlib : walk (root w) (resolve w lib) = inr (Dir kids).
Hypothesis Hkids : List.NoDup (map fst kids).
Hypothesis Hsub : forall a cs, In (a, Dir cs) kids -> List.NoDup (map fst cs).

Lemma aliased_walk_child ms a nd :
  In (a, nd) kids -> a <> nm ->
  walk (root (with_archive w (resolve w lib ++ [nm]) ms false)) (resolve w lib ++ [a])
  = inr nd.
Proof.
  intros Hin Hne.
  destruct (with_archive_root _ _ _ Hopen ms false) as (r & Hr & ->). cbn [root set_root].
  rewrite (walk_put_unrelated _ _ _ _ _ Hr).
  - rewrite walk_app, Hlib. simpl. by rewrite (assoc_In_NoDup a nd kids Hkids Hin).
  - rewrite is_prefix_app_r. simpl. destruct (String.eqb_spec a nm); [done|done].
  - rewrite is_prefix_app_r. simpl. destruct (String.eqb_spec nm a); [by subst|done].
Qed.

Lemma aliased_walk_grandchild ms a cs f nf :
  In (a, Dir cs) kids -> a <> nm -> In (f, nf) cs ->
  walk (root (with_archive w (resolve w lib ++ [nm]) ms false))
       ((resolve w lib ++ [a]) ++ [f]) = inr nf.
Proof.
  intros Ha Hne Hf. rewrite walk_app, (aliased_walk_child ms a _ Ha Hne). simpl.
  by rewrite (assoc_In_NoDup f nf cs (Hsub _ _ Ha) Hf).
Qed.

Lemma aliased_write_child a cs f nf ms :
  In (a, Dir cs) kids -> a <> nm -> In (f, nf) cs ->
  write (mkZipFile (resolve w lib ++ [nm])) (make_child (make_child lib a) f)
    ("jni/" +:+ name (make_child lib a) +:+ "/" +:+
     name (make_child (make_child lib a) f))
    (with_archive w (resolve w lib ++ [nm]) ms false) =
  (Return tt,
   with_archive w (resolve w lib ++ [nm]) (ms ++ [member_for a (f, nf)]) false).
Proof.
  intros Ha Hne Hf. unfold write, stat.
  rewrite (with_archive_resolve _ _ _ Hopen), !resolve_make_child.
  rewrite (aliased_walk_grandchild ms a cs f nf Ha Hne Hf).
  rewrite !name_make_child. unfold member_for. cbn [fst snd].
  destruct nf; apply (run_append_member _ _ _ Hopen).
Qed.

Lemma aliased_write_libs a cs l ms :
  In (a, Dir cs) kids -> a <> nm -> (forall c, In c l -> In c cs) ->
  for_each (map (fun c => make_child (make_child lib a) (fst c)) l)
    (fun f => write (mkZipFile (resolve w lib ++ [nm])) f
                ("jni/" +:+ name (make_child lib a) +:+ "/" +:+ name f))
    (with_archive w (resolve w lib ++ [nm]) ms false) =
  (Return tt, with_archive w (resolve w lib ++ [nm]) (ms ++ map (member_for a) l) false).
Proof.
  intros Ha Hne. revert ms. induction l as [|[f nf] l IH]; intros ms Hl.
  - cbn [map for_each]. by rewrite app_nil_r.
  - cbn [map for_each fst].
    erewrite bind_Return;
      [|apply (aliased_write_child a cs f nf ms Ha Hne); apply Hl; by left].
    rewrite IH; [|intros; apply Hl; by right].
    by rewrite <- app_assoc.
Qed.

Lemma aliased_abi_body v a nd ms :
  In (a, nd) (assoc_set nm (File v) kids) ->
  abi_body (mkZipFile (resolve w lib ++ [nm])) (make_child lib a)
    (with_archive w (resolve w lib ++ [nm]) ms false) =
  match glob_children ".so" nd with
  | [] => (Raise (no_libraries_error (make_child lib a)),
           with_archive w (resolve w lib ++ [nm]) ms false)
  | libs => (Return tt,
             with_archive w (resolve w lib ++ [nm]) (ms ++ map (member_for a) libs) false)
  end.
Proof.
  intros Hin. unfold abi_body, bind, glob_star, stat.
  rewrite (with_archive_resolve _ _ _ Hopen), resolve_make_child.
  destruct (String.eqb_spec a nm) as [->|Hne].
  - rewrite (assoc_set_In_same _ _ _ _ Hkids Hin).
    by rewrite (with_archive_walk_target _ _ _ Hopen).
  - apply assoc_set_In_other in Hin; [|done].
    rewrite (aliased_walk_child ms a nd Hin Hne).
    destruct nd as [b|cs]; [done|].
    cbn [glob_children].
    destruct (List.filter _ cs) as [|c cs'] eqn:Hglob; [done|].
    apply (aliased_write_libs a cs (c :: cs') ms Hin Hne).
    intros c' Hc'. rewrite <- Hglob in Hc'. by apply filter_In in Hc' as [Hc' _].
Qed.

Lemma aliased_abi_loop v l ms :
  (forall c, In c l -> In c (assoc_set nm (File v) kids)) ->
  for_each (map (fun c => make_child lib (fst c)) l)
    (abi_body (mkZipFile (resolve w lib ++ [nm])))
    (with_archive w (resolve w lib ++ [nm]) ms false) =
  (match first_without_libs l with
   | None => Return tt
   | Some c => Raise (no_libraries_error (make_child lib c))
   end,
   with_archive w (resolve w lib ++ [nm]) (ms ++ packed l) false).
Proof.
  revert ms. induction l as [|[a nd] l IH]; intros ms Hl.
  - cbn [map for_each first_without_libs packed]. by rewrite app_nil_r.
  - cbn [map for_each first_without_libs packed fst].
    unfold bind. rewrite (aliased_abi_body v a nd ms) by (apply Hl; by left).
    destruct (glob_children ".so" nd) as [|c cs'] eqn:Hglob.
    + by rewrite app_nil_r.
    + rewrite IH; [|intros; apply Hl; by right].
      by rewrite <- app_assoc.
Qed.

Lemma aliased_iterdir ms :
  iterdir lib (with_archive w (resolve w lib ++ [nm]) ms false) =
  (Return (map (fun c => make_child lib (fst c))
               (assoc_set nm (File (ZipImage ms false)) kids)),
   with_archive w (resolve w lib ++ [nm]) ms false).
Proof.
  unfold iterdir, stat. rewrite (with_archive_resolve _ _ _ Hopen).
  destruct (with_archive_root _ _ _ Hopen ms false) as (r & Hr & Hw).
  rewrite Hw at 1. cbn [root set_root].
  by rewrite (walk_put_parent _ _ _ _ _ _ Hlib Hr).
Qed.

Lemma aliased_run out g a n :
  resolve w out = resolve w lib ++ [nm] ->
  exists c w',
    first_without_libs
      (assoc_set nm (File (ZipImage [manifest_member g a n] false)) kids) = Some c /\
    Aar.generate_aar out lib g a n w = (Raise (no_libraries_error (make_child lib c)), w').
Proof.
  intros Hpo.
  destruct (first_without_libs
              (assoc_set nm (File (ZipImage [manifest_member g a n] false)) kids))
    as [c|] eqn:Hc.
  2:{ rewrite first_without_libs_None in Hc.
      exfalso. apply (Hc (nm, File (ZipImage [manifest_member g a n] false))); [|done].
      apply assoc_In. apply assoc_set_same. }
  exists c. eexists. split; [done|].
  rewrite generate_aar_unfold. unfold with_ZipFile.
  erewrite bind_Return; [|by apply (run_ZipFile_open _ _ _ Hopen)].
  unfold try_finally.
  erewrite bind_Return; [|apply (run_append_member _ _ _ Hopen)].
  cbn [app]. fold (manifest_member g a n).
  erewrite bind_Return; [|apply aliased_iterdir].
  rewrite (aliased_abi_loop (ZipImage [manifest_member g a n] false)) by done.
  rewrite Hc. by rewrite (run_ZipFile_close _ _ _ Hopen).
Qed.

End Aliased.

(** X7. When the output path designates an entry directly inside the
    library directory, [generate_aar] always fails: the archive is created
    before the directory is listed, is not a directory, and so has no
    library.  The call raises the no-libraries error for the first child
    without a match; when every child present before the call has a
    library, the error names the archive itself. *)
Theorem generate_aar_output_in_library w out lib g a n kids nm :
  wf_node (root w) = true ->
  creatable w out = true ->
  resolve w out = resolve w lib ++ [nm] ->
  stat w lib = inr (Dir kids) ->
  exists c w',
    Aar.generate_aar out lib g a n w =
      (Raise (RuntimeError
                ("No libraries found matching " +:+ str (make_child lib c) +:+ "/*.so")),
       w') /\
    (first_without_libs kids = None -> c = nm).
Proof.
  intros Hwf Hc Hpo Hlib. destruct (creatable_put _ _ Hc) as [r0 Hopen].
  rewrite Hpo in Hopen.
  destruct (wf_listing _ _ _ Hwf Hlib) as (Hk & Hs & _).
  destruct (aliased_run w lib nm r0 kids Hopen Hlib Hk Hs out g a n Hpo)
    as (c & w' & Hfirst & Hrun).
  exists c, w'. split; [exact Hrun|].
  intros Hall. rewrite (assoc_set_first_without_libs _ _ _ Hall) in Hfirst. congruence.
Qed.

Lemma generate_aar_output_in_library_witness :
  exists c w',
    Aar.generate_aar (Path_of_string "lib/foo.aar") sample_library "com.example" "foo" 26
      (sample_world two_abis) =
      (Raise (RuntimeError
                ("No libraries found matching " +:+ str (make_child sample_library c)
                 +:+ "/*.so")),
       w') /\
    (first_without_libs two_abis = None -> c = "foo.aar").
Proof.
  apply (generate_aar_output_in_library (sample_world two_abis)
           (Path_of_string "lib/foo.aar") sample_library "com.example" "foo" 26 two_abis);
    reflexivity.
Defined.

(* ================================================================== *)
(** ** Further properties of [ndk_default_abis] and [artifact_info_from_env] *)

(** Once the NDK is found and [abis.json] is a regular file, the rest of
    [ndk_default_abis] is decided by the parsed content. *)
Lemma run_ndk_metadata (json_loads : string -> option json) w home bytes :
  environ w !! "ANDROID_NDK_HOME" = Some home ->
  stat w (joinpath (Path_of_string home) (Path_of_string "meta/abis.json"))
    = inr (File (Raw bytes)) ->
  Jitpack.ndk_default_abis json_loads w =
  match json_loads (string_of_list_byte bytes) with
  | None => (Raise (ValueError "JSONDecodeError"), w)
  | Some (JObject abis) =>
      yield_from_loop abis
        (fun item : string * json =>
           default <- getitem (snd item) "default" ;;
           ret (if truthy default then [fst item] else [])) w
  | Some _ => (Raise (AttributeError "items"), w)
  end.
Proof.
  intros Henv Hstat. unfold Jitpack.ndk_default_abis.
  unfold bind at 1, try_except_KeyError. unfold bind at 1, os_environ_getitem.
  rewrite Henv. unfold ret at 1.
  unfold bind at 1, Path_exists. rewrite Hstat.
  unfold bind at 1. cbn [negb]. unfold ret at 1.
  unfold bind at 1, Jitpack.json_load. rewrite Hstat.
  destruct (json_loads (string_of_list_byte bytes)) as [v|]; [|done].
  by destruct v.
Qed.

Lemma run_yield_truthy abis w :
  (forall name data, In (name, data) abis ->
     exists fields v, data = JObject fields /\ assoc "default" fields = Some v) ->
  yield_from_loop abis
    (fun item : string * json =>
       default <- getitem (snd item) "default" ;;
       ret (if truthy default then [fst item] else [])) w =
  (Return (map fst (List.filter (fun item => default_truthy (snd item)) abis)), w).
Proof.
  induction abis as [|[name data] abis IH]; intros Hshape; [done|].
  destruct (Hshape name data) as (fields & v & -> & Hdefault); [by left|].
  cbn [yield_from_loop].
  erewrite bind_Return.
  2:{ unfold bind. cbn [snd fst getitem]. rewrite Hdefault. reflexivity. }
  erewrite bind_Return.
  2:{ apply IH. intros name' data' Hin. apply (Hshape name' data'). by right. }
  cbn [List.filter snd default_truthy]. rewrite Hdefault.
  by destruct (truthy v).
Qed.

Lemma run_yield_stops pre name data post w :
  (forall name' data', In (name', data') pre ->
     exists fields v, data' = JObject fields /\ assoc "default" fields = Some v) ->
  (forall fields, data = JObject fields -> assoc "default" fields = None) ->
  yield_from_loop (pre ++ (name, data) :: post)
    (fun item : string * json =>
       default <- getitem (snd item) "default" ;;
       ret (if truthy default then [fst item] else [])) w =
  (Raise (match data with JObject _ => KeyError "default" | _ => TypeError end), w).
Proof.
  intros Hpre Hdata. induction pre as [|[name' data'] pre IH].
  - cbn [app yield_from_loop]. unfold bind. cbn [snd fst].
    destruct data; try done.
    cbn [getitem]. by rewrite (Hdata _ eq_refl).
  - destruct (Hpre name' data') as (fields & v & -> & Hdefault); [by left|].
    cbn [app yield_from_loop].
    erewrite bind_Return.
    2:{ unfold bind. cbn [snd fst getitem]. rewrite Hdefault. reflexivity. }
    unfold bind at 1. rewrite IH; [done|].
    intros n d Hin. apply (Hpre n d). by right.
Qed.

Lemma yield_world abis w :
  snd (yield_from_loop abis
         (fun item : string * json =>
            default <- getitem (snd item) "default" ;;
            ret (if truthy default then [fst item] else [])) w) = w.
Proof.
  induction abis as [|[name data] abis IH]; [done|].
  cbn [yield_from_loop]. unfold bind at 1. unfold bind at 1. cbn [snd fst].
  assert (Hget : (exists v, getitem data "default" w = (Return v, w)) \/
                 (exists e, getitem data "default" w = (Raise e, w))).
  { destruct data; cbn [getitem]; try (right; by eexists).
    destruct (assoc "default" members); [left|right]; by eexists. }
  destruct Hget as [[v ->]|[e ->]]; [|done].
  unfold ret at 1. unfold bind at 1.
  destruct (yield_from_loop abis _ w) as [[ys|e] w'] eqn:Hrest; exact IH.
Qed.

(** X8. On a well-shaped [abis.json], whatever the type of the field
    [default] of each ABI, [ndk_default_abis] yields the names of the ABIs
    whose [default] Python takes for true (a non-zero number, a non-empty
    string, list or object, [true]), in the order of the file, and leaves
    out those it takes for false ([false], [null], zero, empty values). *)
Theorem ndk_default_abis_truthiness (json_loads : string -> option json) w home bytes abis :
  environ w !! "ANDROID_NDK_HOME" = Some home ->
  stat w (joinpath (Path_of_string home) (Path_of_string "meta/abis.json"))
    = inr (File (Raw bytes)) ->
  json_loads (string_of_list_byte bytes) = Some (JObject abis) ->
  (forall name data, In (name, data) abis ->
     exists fields v, data = JObject fields /\ assoc "default" fields = Some v) ->
  Jitpack.ndk_default_abis json_loads w =
    (Return (map fst (List.filter (fun item => default_truthy (snd item)) abis)), w).
Proof.
  intros Henv Hstat Hparse Hshape.
  rewrite (run_ndk_metadata _ _ _ _ Henv Hstat), Hparse.
  by apply run_yield_truthy.
Qed.

Lemma ndk_default_abis_truthiness_witness :
  Jitpack.ndk_default_abis
    (fun _ => Some (JObject [("armeabi-v7a", JObject [("default", JInt 1)]);
                             ("mips", JObject [("default", JNull)]);
                             ("x86", JObject [("default", JString "yes")]);
                             ("riscv64", JObject [("default", JInt 0)])]))
    (world_with_env [("ANDROID_NDK_HOME", "/opt/ndk")] ndk_root) =
  (Return ["armeabi-v7a"; "x86"],
   world_with_env [("ANDROID_NDK_HOME", "/opt/ndk")] ndk_root).
Proof.
  apply (ndk_default_abis_truthiness _
           (world_with_env [("ANDROID_NDK_HOME", "/opt/ndk")] ndk_root) "/opt/ndk" []
           [("armeabi-v7a", JObject [("default", JInt 1)]);
            ("mips", JObject [("default", JNull)]);
            ("x86", JObject [("default", JString "yes")]);
            ("riscv64", JObject [("default", JInt 0)])]).
  - reflexivity.
  - reflexivity.
  - reflexivity.
  - intros name data [[= <- <-]|[[= <- <-]|[[= <- <-]|[[= <- <-]|[]]]]];
      eexists _, _; (split; [reflexivity|reflexivity]).
Defined.

(** X9. When an ABI of [abis.json] has no field [default], the call ends
    with [KeyError "default"], and with [TypeError] when the entry of the
    ABI is not an object.  The error is not turned into an exit with a
    message, the names of the default ABIs found before it are lost, and
    the world is unchanged. *)
Theorem ndk_default_abis_entry_without_default
    (json_loads : string -> option json) w home bytes pre name data post :
  environ w !! "ANDROID_NDK_HOME" = Some home ->
  stat w (joinpath (Path_of_string home) (Path_of_string "meta/abis.json"))
    = inr (File (Raw bytes)) ->
  json_loads (string_of_list_byte bytes) = Some (JObject (pre ++ (name, data) :: post)) ->
  (forall name' data', In (name', data') pre ->
     exists fields v, data' = JObject fields /\ assoc "default" fields = Some v) ->
  (forall fields, data = JObject fields -> assoc "default" fields = None) ->
  Jitpack.ndk_default_abis json_loads w =
    (Raise (match data with JObject _ => KeyError "default" | _ => TypeError end), w).
Proof.
  intros Henv Hstat Hparse Hpre Hdata.
  rewrite (run_ndk_metadata _ _ _ _ Henv Hstat), Hparse.
  by apply run_yield_stops.
Qed.

Lemma ndk_default_abis_entry_without_default_witness :
  Jitpack.ndk_default_abis
    (fun _ => Some (JObject [("arm64-v8a", JObject [("default", JBool true)]);
                             ("riscv64", JObject [("bitness", JInt 64)]);
                             ("x86_64", JObject [("default", JBool true)])]))
    (world_with_env [("ANDROID_NDK_HOME", "/opt/ndk")] ndk_root) =
  (Raise (KeyError "default"),
   world_with_env [("ANDROID_NDK_HOME", "/opt/ndk")] ndk_root).
Proof.
  apply (ndk_default_abis_entry_without_default _
           (world_with_env [("ANDROID_NDK_HOME", "/opt/ndk")] ndk_root) "/opt/ndk" []
           [("arm64-v8a", JObject [("default", JBool true)])]
           "riscv64" (JObject [("bitness", JInt 64)])
           [("x86_64", JObject [("default", JBool true)])]).
  - reflexivity.
  - reflexivity.
  - reflexivity.
  - intros name' data' [[= <- <-]|[]]. eexists _, _. split; reflexivity.
  - intros fields [= <-]. reflexivity.
Defined.

(** X10. With [ANDROID_NDK_HOME] set, a [meta/abis.json] that exists but
    is not usable makes [ndk_default_abis] raise, not exit with a message:
    [IsADirectoryError] when it is a directory, the decoding error when
    its content does not parse, and [AttributeError] for [items] when the
    document is not an object.  Nothing is yielded and the world is
    unchanged. *)
Theorem ndk_default_abis_unusable_metadata (json_loads : string -> option json) w home :
  environ w !! "ANDROID_NDK_HOME" = Some home ->
  (forall cs,
     stat w (joinpath (Path_of_string home) (Path_of_string "meta/abis.json"))
       = inr (Dir cs) ->
     Jitpack.ndk_default_abis json_loads w =
       (Raise (IsADirectoryError
                 (str (joinpath (Path_of_string home) (Path_of_string "meta/abis.json")))),
        w)) /\
  (forall bytes,
     stat w (joinpath (Path_of_string home) (Path_of_string "meta/abis.json"))
       = inr (File (Raw bytes)) ->
     json_loads (string_of_list_byte bytes) = None ->
     Jitpack.ndk_default_abis json_loads w = (Raise (ValueError "JSONDecodeError"), w)) /\
  (forall bytes v,
     stat w (joinpath (Path_of_string home) (Path_of_string "meta/abis.json"))
       = inr (File (Raw bytes)) ->
     json_loads (string_of_list_byte bytes) = Some v ->
     (forall abis, v <> JObject abis) ->
     Jitpack.ndk_default_abis json_loads w = (Raise (AttributeError "items"), w)).
Proof.
  intros Henv. split; [|split].
  - intros cs Hstat. unfold Jitpack.ndk_default_abis.
    unfold bind at 1, try_except_KeyError. unfold bind at 1, os_environ_getitem.
    rewrite Henv. unfold ret at 1.
    unfold bind at 1, Path_exists. rewrite Hstat.
    unfold bind at 1. cbn [negb]. unfold ret at 1.
    unfold bind at 1, Jitpack.json_load. by rewrite Hstat.
  - intros bytes Hstat Hparse.
    by rewrite (run_ndk_metadata _ _ _ _ Henv Hstat), Hparse.
  - intros bytes v Hstat Hparse Hv.
    rewrite (run_ndk_metadata _ _ _ _ Henv Hstat), Hparse.
    destruct v; try done. by destruct (Hv members).
Qed.

Lemma ndk_default_abis_unusable_metadata_witness :
  Jitpack.ndk_default_abis (fun _ => Some (JArray [JString "arm64-v8a"]))
    (world_with_env [("ANDROID_NDK_HOME", "/opt/ndk")] ndk_root) =
  (Raise (AttributeError "items"),
   world_with_env [("ANDROID_NDK_HOME", "/opt/ndk")] ndk_root).
Proof.
  apply (proj2 (proj2 (ndk_default_abis_unusable_metadata
                         (fun _ => Some (JArray [JString "arm64-v8a"]))
                         (world_with_env [("ANDROID_NDK_HOME", "/opt/ndk")] ndk_root)
                         "/opt/ndk" eq_refl)) [] (JArray [JString "arm64-v8a"])).
  - reflexivity.
  - reflexivity.
  - intros abis. discriminate.
Defined.

Lemma ndk_default_abis_world (json_loads : string -> option json) w :
  snd (Jitpack.ndk_default_abis json_loads w) = w.
Proof.
  unfold Jitpack.ndk_default_abis.
  unfold bind at 1, try_except_KeyError. unfold bind at 1, os_environ_getitem.
  destruct (environ w !! "ANDROID_NDK_HOME") as [home|]; [|done].
  unfold ret at 1.
  unfold bind at 1, Path_exists.
  destruct (stat w _) as [e|nd] eqn:Hstat; [done|].
  unfold bind at 1. cbn [negb]. unfold ret at 1.
  unfold bind at 1, Jitpack.json_load. rewrite Hstat.
  destruct nd as [[bytes|ms fin]|cs]; try done.
  destruct (json_loads (string_of_list_byte bytes)) as [v|]; [|done].
  unfold bind at 1.
  destruct v; try done. cbn [dict_items]. unfold ret at 1.
  apply yield_world.
Qed.

Lemma artifact_info_from_env_world w : snd (Jitpack.artifact_info_from_env w) = w.
Proof.
  unfold Jitpack.artifact_info_from_env, try_except_KeyError, bind,
    os_environ_getitem, sys_exit, raise, ret.
  destruct (environ w !! "GROUP"); [|done].
  destruct (environ w !! "ARTIFACT"); [|done].
  by destruct (environ w !! "VERSION").
Qed.

(** X11. Reading the configuration changes nothing: whatever the
    environment, the file system and the content of [abis.json], and
    whether they return or raise, [artifact_info_from_env] and
    [ndk_default_abis] leave the environment, the working directory and
    every file as they were. *)
Theorem configuration_is_read_only (json_loads : string -> option json) w :
  snd (Jitpack.artifact_info_from_env w) = w /\
  snd (Jitpack.ndk_default_abis json_loads w) = w.
Proof. split; [apply artifact_info_from_env_world|apply ndk_default_abis_world]. Qed.

(* ================================================================== *)
(** ** The jitpack driver *)

Lemma dbind_Done {A B : Type} (m : D A) (k : A -> D B) w a w' :
  m w = (Done a, w') -> dbind m k w = k a w'.
Proof. unfold dbind. by intros ->. Qed.

Lemma lift_Return {A : Type} (m : M A) w a w' :
  m w = (Return a, w') -> lift m w = (Done a, w').
Proof. unfold lift. by intros ->. Qed.

Lemma run_artifact_info w g a v :
  environ w !! "GROUP" = Some g ->
  environ w !! "ARTIFACT" = Some a ->
  environ w !! "VERSION" = Some v ->
  Jitpack.artifact_info_from_env w = (Return (g, a, v), w).
Proof.
  intros HG HA HV.
  unfold Jitpack.artifact_info_from_env, try_except_KeyError, bind, os_environ_getitem, ret.
  by rewrite HG, HA, HV.
Qed.

(** *** [mkdir] with [parents] and [exist_ok] *)


Lemma walk_empty_Dir q qs : walk (Dir []) (q :: qs) = inl ENOENT.
Proof. done. Qed.



Lemma makedirs_File n ps b :
  walk n ps = inr (File b) -> makedirs n ps = inl ExistsAsFile.
Proof.
  revert n. induction ps as [|p ps IH]; intros n; cbn [walk makedirs].
  - by intros [= ->].
  - destruct n as [b'|cs]; [done|].
    destruct (assoc p cs) as [c|]; [|done].
    intros Hw. by rewrite (IH _ Hw).
Qed.


Lemma is_prefix_refl l : is_prefix l l = true.
Proof. induction l as [|x l IH]; [done|]. cbn [is_prefix]. by rewrite String.eqb_refl. Qed.


(** *** The run of [main] up to the call of Maven *)

Section MainRun.

Context (json_loads : string -> option json)
        (android_build : string -> list string -> string -> D Path)
        (MIN_SDK_VERSION : Z)
        (RepoRelative : string -> string)
        (spawn : list string -> world -> (driver_exn + Z) * world).

Context (w w1 w2 : world) (g a v : string) (abis : list string) (build_dir : Path).

Local Abbreviation aar_dir := (Path_of_string (RepoRelative "build-android/aar")).
Local Abbreviation aar := (joinpath aar_dir (Path_of_string (a +:+ "-" +:+ v +:+ ".aar"))).
Local Abbreviation lib := (joinpath build_dir (Path_of_string "lib")).

Hypothesis Hgroup : environ w !! "GROUP" = Some g.
Hypothesis Hartifact : environ w !! "ARTIFACT" = Some a.
Hypothesis Hversion : environ w !! "VERSION" = Some v.
Hypothesis Habis : fst (Jitpack.ndk_default_abis json_loads w) = Return abis.
Hypothesis Hbuild : android_build "Release" abis "c++_static" w = (Done build_dir, w1).

Lemma main_after_build :
  JitpackDriver.main json_loads android_build MIN_SDK_VERSION RepoRelative spawn w =
  (Path_mkdir aar_dir ;;
   lift (Jitpack.generate_aar aar lib g a MIN_SDK_VERSION) ;;
   JitpackDriver.install spawn aar g a v)%drv w1.
Proof.
  unfold JitpackDriver.main.
  erewrite dbind_Done; [|by apply lift_Return, run_artifact_info].
  cbv beta iota.
  erewrite dbind_Done.
  2:{ apply lift_Return.
      pose proof (ndk_default_abis_world json_loads w) as Hw.
      destruct (Jitpack.ndk_default_abis json_loads w) as [r w'].
      cbn [fst snd] in *. by rewrite Habis, Hw. }
  by erewrite dbind_Done; [|exact Hbuild].
Qed.

Context (nm : string) (kids : list (string * node)).

Hypothesis Hwf : wf_node (root w1) = true.
Hypothesis Hmkdir : Path_mkdir aar_dir w1 = (Done tt, w2).
Hypothesis Hname : resolve w1 aar = resolve w1 aar_dir ++ [nm].
Hypothesis Hfree : forall cs, stat w1 aar <> inr (Dir cs).
Hypothesis Hapart : inside w1 aar_dir lib = false.
Hypothesis Hlib : stat w1 lib = inr (Dir kids).


End MainRun.

(** X12. [main] starts nothing before the configuration is complete: when
    one of [GROUP], [ARTIFACT], [VERSION], [ANDROID_NDK_HOME] is not set,
    it exits with the message naming the first missing one in that order,
    whatever the native build and Maven would do, and the world is
    unchanged: no build, no directory, no archive, no Maven. *)
Theorem main_missing_configuration
    (json_loads : string -> option json)
    (android_build : string -> list string -> string -> D Path)
    (MIN_SDK_VERSION : Z) (RepoRelative : string -> string)
    (spawn : list string -> world -> (driver_exn + Z) * world) w k :
  first_missing ["GROUP"; "ARTIFACT"; "VERSION"; "ANDROID_NDK_HOME"] (environ w) = Some k ->
  JitpackDriver.main json_loads android_build MIN_SDK_VERSION RepoRelative spawn w =
    (Failed (PyExn (SystemExit (k +:+ " must be set in the environment"))), w).
Proof.
  unfold first_missing. cbn [List.find].
  unfold JitpackDriver.main. unfold dbind at 1, lift at 1.
  unfold Jitpack.artifact_info_from_env, try_except_KeyError, bind,
    os_environ_getitem, sys_exit, raise, ret.
  destruct (environ w !! "GROUP") as [g|] eqn:HG; [|by intros [= <-]].
  destruct (environ w !! "ARTIFACT") as [a|] eqn:HA; [|by intros [= <-]].
  destruct (environ w !! "VERSION") as [v|] eqn:HV; [|by intros [= <-]].
  destruct (environ w !! "ANDROID_NDK_HOME") as [home|] eqn:HN; [done|].
  intros [= <-]. unfold dbind at 1, lift at 1.
  unfold Jitpack.ndk_default_abis.
  unfold bind at 1, try_except_KeyError. unfold bind at 1, os_environ_getitem.
  by rewrite HN.
Qed.

Lemma main_missing_configuration_witness :
  JitpackDriver.main (fun _ => Some sample_abis) built_already 26 repo_relative (mvn_exits 0)
    (world_with_env [("GROUP", "com.example"); ("ARTIFACT", "foo"); ("VERSION", "1.0")]
       (jitpack_root two_abis)) =
  (Failed (PyExn (SystemExit ("ANDROID_NDK_HOME" +:+ " must be set in the environment"))),
   world_with_env [("GROUP", "com.example"); ("ARTIFACT", "foo"); ("VERSION", "1.0")]
     (jitpack_root two_abis)).
Proof.
  apply (main_missing_configuration (fun _ => Some sample_abis) built_already 26
           repo_relative (mvn_exits 0)
           (world_with_env [("GROUP", "com.example"); ("ARTIFACT", "foo"); ("VERSION", "1.0")]
              (jitpack_root two_abis))
           "ANDROID_NDK_HOME").
  reflexivity.
Defined.





(** X15. When [build-android/aar] exists after the native build but is a
    regular file, [main] fails with [FileExistsError] naming it and does
    nothing more: the world is as the build left it, no archive is
    written and Maven is not started. *)
Theorem main_archive_directory_is_a_file
    (json_loads : string -> option json)
    (android_build : string -> list string -> string -> D Path)
    (MIN_SDK_VERSION : Z) (RepoRelative : string -> string)
    (spawn : list string -> world -> (driver_exn + Z) * world)
    w w1 g a v abis build_dir b :
  environ w !! "GROUP" = Some g ->
  environ w !! "ARTIFACT" = Some a ->
  environ w !! "VERSION" = Some v ->
  fst (Jitpack.ndk_default_abis json_loads w) = Return abis ->
  android_build "Release" abis "c++_static" w = (Done build_dir, w1) ->
  stat w1 (Path_of_string (RepoRelative "build-android/aar")) = inr (File b) ->
  JitpackDriver.main json_loads android_build MIN_SDK_VERSION RepoRelative spawn w =
    (Failed (FileExistsError (str (Path_of_string (RepoRelative "build-android/aar")))), w1).
Proof.
  intros HG HA HV Habis Hbuild Hfile.
  rewrite (main_after_build json_loads android_build MIN_SDK_VERSION RepoRelative spawn
             w w1 g a v abis build_dir HG HA HV Habis Hbuild).
  unfold dbind at 1, Path_mkdir. by rewrite (makedirs_File _ _ _ Hfile).
Qed.

Lemma main_archive_directory_is_a_file_witness :
  JitpackDriver.main (fun _ => Some sample_abis) built_already 26 repo_relative (mvn_exits 0)
    jitpack_host_with_file =
  (Failed (FileExistsError (str (Path_of_string (repo_relative "build-android/aar")))),
   jitpack_host_with_file).
Proof.
  apply (main_archive_directory_is_a_file (fun _ => Some sample_abis) built_already 26
           repo_relative (mvn_exits 0) jitpack_host_with_file jitpack_host_with_file
           "com.example" "foo" "1.0" ["arm64-v8a"; "x86_64"]
           (Path_of_string "/repo/build-android/cmake")
           (Raw (list_byte_of_string "not a directory")));
    reflexivity.
Defined.
